(** * pymonerowallet: the JSON-RPC client of [monerowallet/__init__.py]

    A shallow embedding of the [MoneroWallet] class: the request bodies its
    methods build by byte templating, the dispatch routine [__sendrequest]
    with its two error checks, and the state a call touches (the attributes
    of the object, the requests put on the wire, the lines printed). *)

From Stdlib Require Import ZArith String Ascii List Bool Lia.
From Stdlib Require Import DecimalString DecimalZ DecimalFacts DecimalPos.
From Stdlib Require Import Floats.PrimFloat Floats.SpecFloat Floats.FloatOps.
From stdpp Require Import base option gmap strings.

Set Warnings "-register-all".

Local Open Scope string_scope.
Local Open Scope Z_scope.

(** stdpp keeps [simpl] from unfolding the concatenation of strings; the
    proofs below compute with it. *)
#[local] Arguments String.append !_ _ : simpl nomatch.

(** ** Bytes and text

    A Python [bytes] value is a [string] (a sequence of 8-bit characters).
    A Python [str] is represented by its UTF-8 encoding, so that
    [str.encode()] is the identity and concatenation of strs is
    concatenation of their encodings.  Strs holding lone surrogates, which
    [encode()] rejects, have no representative. *)

Definition bytes := string.

Definition encode (s : string) : bytes := s.

Definition dquote : ascii := ascii_of_nat 34.
Definition squote : ascii := ascii_of_nat 39.
Definition backslash : ascii := ascii_of_nat 92.
Definition LF : ascii := ascii_of_nat 10.
Definition CR : ascii := ascii_of_nat 13.
Definition TAB : ascii := ascii_of_nat 9.

(** The byte literals of the source are written here as they are there, with
    one change of alphabet: the apostrophe stands for the double quote, and
    the two characters backslash-n stand for the line feed as in Python. *)
Fixpoint py (s : string) : bytes :=
  match s with
  | EmptyString => EmptyString
  | String c s' =>
      if Ascii.eqb c squote then String dquote (py s')
      else if Ascii.eqb c backslash then
        match s' with
        | String "n"%char s'' => String LF (py s'')
        | _ => String c (py s')
        end
      else String c (py s')
  end.

(** [bytes.replace(old, new)]: every occurrence of [old], found scanning from
    the left and never overlapping, becomes [new]; the inserted text is not
    scanned again.  [skip] counts the bytes of a match still to be dropped. *)
Fixpoint replace_from (old new : bytes) (skip : nat) (s : bytes) : bytes :=
  match s with
  | EmptyString => EmptyString
  | String c s' =>
      match skip with
      | S k => replace_from old new k s'
      | O =>
          if String.prefix old s
          then new +:+ replace_from old new (Nat.pred (String.length old)) s'
          else String c (replace_from old new 0 s')
      end
  end.

(** With an empty [old], Python inserts [new] before every byte and at the
    end. *)
Fixpoint replace_empty (new s : bytes) : bytes :=
  match s with
  | EmptyString => new
  | String c s' => new +:+ String c (replace_empty new s')
  end.

Definition replace (old new s : bytes) : bytes :=
  match old with
  | EmptyString => replace_empty new s
  | String _ _ => replace_from old new 0 s
  end.

(** [sep.join(l)] *)
Fixpoint join (sep : string) (l : list string) : string :=
  match l with
  | [] => EmptyString
  | [x] => x
  | x :: l' => x +:+ sep +:+ join sep l'
  end.

(** The format of one double quote, the placeholder and one double quote,
    applied to a str [i]: the text of [i] between double quotes. *)
Definition quoted (i : string) : string :=
  String dquote (i +:+ String dquote EmptyString).

(** [str(n)] for an int: decimal digits, a minus sign when negative. *)
Definition str_int (n : Z) : string := NilZero.string_of_int (Z.to_int n).

(** *** [str(b)] of a bytes object, as [format] inserts it for [{}]

    CPython's [PyBytes_Repr]: the quote is the apostrophe unless the bytes
    hold an apostrophe and no double quote; the quote and the backslash are
    escaped, tab, line feed and carriage return are written [\t], [\n], [\r],
    other bytes below 0x20 or from 0x7f on as [\xhh]. *)
Fixpoint contains_byte (c : ascii) (s : bytes) : bool :=
  match s with
  | EmptyString => false
  | String d s' => Ascii.eqb c d || contains_byte c s'
  end.

Definition hexdigit (n : N) : ascii :=
  match String.get (N.to_nat n) "0123456789abcdef" with
  | Some c => c
  | None => "0"%char
  end.

Definition repr_byte (quote c : ascii) : string :=
  if Ascii.eqb c quote || Ascii.eqb c backslash then String backslash (String c EmptyString)
  else if Ascii.eqb c TAB then String backslash "t"
  else if Ascii.eqb c LF then String backslash "n"
  else if Ascii.eqb c CR then String backslash "r"
  else if (N_of_ascii c <? 32)%N || (127 <=? N_of_ascii c)%N then
    String backslash
      (String "x" (String (hexdigit (N_of_ascii c / 16))
                     (String (hexdigit (N_of_ascii c mod 16)) EmptyString)))
  else String c EmptyString.

Fixpoint repr_bytes_body (quote : ascii) (s : bytes) : string :=
  match s with
  | EmptyString => EmptyString
  | String c s' => repr_byte quote c +:+ repr_bytes_body quote s'
  end.

Definition bytes_quote (s : bytes) : ascii :=
  if contains_byte squote s && negb (contains_byte dquote s) then dquote else squote.

Definition str_bytes (s : bytes) : string :=
  let quote := bytes_quote s in
  String "b" (String quote (repr_bytes_body quote s +:+ String quote EmptyString)).

(** Reading a text written by [repr_bytes_body] back, up to the closing
    quote; it serves to show that the text determines the bytes. *)
Definition unhex (c : ascii) : option N :=
  if (48 <=? N_of_ascii c)%N && (N_of_ascii c <=? 57)%N then Some (N_of_ascii c - 48)%N
  else if (97 <=? N_of_ascii c)%N && (N_of_ascii c <=? 102)%N
       then Some (N_of_ascii c - 87)%N
  else None.

Fixpoint unrepr (quote : ascii) (s : string) : option (bytes * string) :=
  match s with
  | EmptyString => None
  | String c s1 =>
      if Ascii.eqb c quote then Some (EmptyString, s1)
      else if Ascii.eqb c backslash then
        match s1 with
        | EmptyString => None
        | String d s2 =>
            if Ascii.eqb d "x" then
              match s2 with
              | String h1 (String h2 s4) =>
                  a ← unhex h1; b ← unhex h2;
                  '(t, r) ← unrepr quote s4;
                  Some (String (ascii_of_N (16 * a + b)) t, r)
              | _ => None
              end
            else
              let byte := if Ascii.eqb d "t" then TAB
                          else if Ascii.eqb d "n" then LF
                          else if Ascii.eqb d "r" then CR
                          else d in
              '(t, r) ← unrepr quote s2; Some (String byte t, r)
        end
      else '(t, r) ← unrepr quote s1; Some (String c t, r)
  end.

(** ** Reading a request body as JSON

    What a body says to the daemon is its reading as a JSON text (RFC 8259).
    The reader takes the bytes one at a time, as a streaming parser does: a
    lexer mode for the token under way, and a stack of the arrays and objects
    still open.  It covers what the templates of this client can produce:
    objects, arrays, strings without escape sequences, integers in canonical
    decimal form and the three literals.  Anything else (an escape, a
    fraction, a control character inside a string) is refused with [None],
    so a reading [Some v] is a reading every JSON parser agrees with.
    Members of an object are kept in the order of the text, duplicates
    included. *)

Inductive json : Type :=
  | JNull
  | JBool (b : bool)
  | JInt (n : Z)
  | JStr (s : string)
  | JArr (items : list json)
  | JObj (members : list (string * json)).

Definition is_ws (c : ascii) : bool :=
  Ascii.eqb c " " || Ascii.eqb c LF || Ascii.eqb c CR || Ascii.eqb c TAB.

(** A byte a JSON string takes as it is. *)
Definition plain_char (c : ascii) : bool :=
  negb (Ascii.eqb c dquote) && negb (Ascii.eqb c backslash)
  && negb (N_of_ascii c <? 32)%N.

Definition is_num_char (c : ascii) : bool :=
  Ascii.eqb c "-" || ((48 <=? N_of_ascii c)%N && (N_of_ascii c <=? 57)%N).

Definition is_letter (c : ascii) : bool :=
  (97 <=? N_of_ascii c)%N && (N_of_ascii c <=? 122)%N.

(** The token under way: none, a string (its characters so far), a number
    (its digits so far) or a bare word. *)
Inductive lexer : Type :=
  | LIdle
  | LStr (acc : string)
  | LNum (acc : string)
  | LWord (acc : string).

(** A container still open, its finished items last first; [FKey] is an
    object whose next value has its key already. *)
Inductive frame : Type :=
  | FArr (items : list json)
  | FObj (members : list (string * json))
  | FKey (members : list (string * json)) (key : string).

(** What may come next. *)
Inductive phase : Type :=
  | PValue          (* a value *)
  | PValueOrClose   (* just after an opening bracket: a value or the bracket's end *)
  | PKeyOrClose     (* just after an opening brace: a key or the brace's end *)
  | PKey            (* after a comma in an object: a key *)
  | PColon          (* after a key *)
  | PNext           (* after a value in a container: a comma or its end *)
  | PDone (v : json).

Definition parser : Type := list frame * phase.

Definition expects_value (ph : phase) : bool :=
  match ph with
  | PValue | PValueOrClose => true
  | _ => false
  end.

(** A finished value goes to the innermost open container, or is the
    result. *)
Definition deliver (stack : list frame) (v : json) : option parser :=
  match stack with
  | [] => Some ([], PDone v)
  | FArr items :: stack' => Some (FArr (v :: items) :: stack', PNext)
  | FKey ms k :: stack' => Some (FObj ((k, v) :: ms) :: stack', PNext)
  | FObj _ :: _ => None
  end.

Definition take_string (p : parser) (s : string) : option parser :=
  let '(stack, ph) := p in
  match ph, stack with
  | (PValue | PValueOrClose), _ => deliver stack (JStr s)
  | (PKey | PKeyOrClose), FObj ms :: stack' => Some (FKey ms s :: stack', PColon)
  | _, _ => None
  end.

Definition take_scalar (p : parser) (v : json) : option parser :=
  let '(stack, ph) := p in
  if expects_value ph then deliver stack v else None.

Definition take_punct (p : parser) (c : ascii) : option parser :=
  let '(stack, ph) := p in
  if Ascii.eqb c "{" then
    if expects_value ph then Some (FObj [] :: stack, PKeyOrClose) else None
  else if Ascii.eqb c "[" then
    if expects_value ph then Some (FArr [] :: stack, PValueOrClose) else None
  else if Ascii.eqb c "}" then
    match ph, stack with
    | (PKeyOrClose | PNext), FObj ms :: stack' => deliver stack' (JObj (rev ms))
    | _, _ => None
    end
  else if Ascii.eqb c "]" then
    match ph, stack with
    | (PValueOrClose | PNext), FArr items :: stack' => deliver stack' (JArr (rev items))
    | _, _ => None
    end
  else if Ascii.eqb c ":" then
    match ph, stack with
    | PColon, FKey _ _ :: _ => Some (stack, PValue)
    | _, _ => None
    end
  else if Ascii.eqb c "," then
    match ph, stack with
    | PNext, FArr _ :: _ => Some (stack, PValue)
    | PNext, FObj _ :: _ => Some (stack, PKey)
    | _, _ => None
    end
  else None.

(** An integer in canonical form: no leading zero, no sign on zero. *)
Definition number_value (digits : string) : option json :=
  i ← NilZero.int_of_string digits;
  if String.eqb (str_int (Z.of_int i)) digits then Some (JInt (Z.of_int i)) else None.

Definition word_value (w : string) : option json :=
  if String.eqb w "true" then Some (JBool true)
  else if String.eqb w "false" then Some (JBool false)
  else if String.eqb w "null" then Some JNull
  else None.

(** A byte met outside any token. *)
Definition feed_idle (p : parser) (c : ascii) : option (lexer * parser) :=
  if is_ws c then Some (LIdle, p)
  else if Ascii.eqb c dquote then Some (LStr EmptyString, p)
  else if is_num_char c then Some (LNum (String c EmptyString), p)
  else if is_letter c then Some (LWord (String c EmptyString), p)
  else p' ← take_punct p c; Some (LIdle, p').

Definition feed (st : lexer * parser) (c : ascii) : option (lexer * parser) :=
  let '(lx, p) := st in
  match lx with
  | LIdle => feed_idle p c
  | LStr acc =>
      if Ascii.eqb c dquote then p' ← take_string p acc; Some (LIdle, p')
      else if plain_char c then Some (LStr (acc +:+ String c EmptyString), p)
      else None
  | LNum acc =>
      if is_num_char c then Some (LNum (acc +:+ String c EmptyString), p)
      else v ← number_value acc; p' ← take_scalar p v; feed_idle p' c
  | LWord acc =>
      if is_letter c then Some (LWord (acc +:+ String c EmptyString), p)
      else v ← word_value acc; p' ← take_scalar p v; feed_idle p' c
  end.

Fixpoint run (st : lexer * parser) (s : bytes) : option (lexer * parser) :=
  match s with
  | EmptyString => Some st
  | String c s' => st' ← feed st c; run st' s'
  end.

(** At the end of the text a number or a word under way is complete, and
    the one value of the text must be. *)
Definition finish (st : lexer * parser) : option json :=
  let '(lx, p) := st in
  p' ← match lx with
       | LIdle => Some p
       | LStr _ => None
       | LNum acc => v ← number_value acc; take_scalar p v
       | LWord acc => v ← word_value acc; take_scalar p v
       end;
  match p' with
  | ([], PDone v) => Some v
  | _ => None
  end.

Definition read_json (s : bytes) : option json :=
  st ← run (LIdle, ([], PValue)) s; finish st.

(** The value of the first member named [k] of an object. *)
Fixpoint member (k : string) (ms : list (string * json)) : option json :=
  match ms with
  | [] => None
  | (k', v) :: ms' => if String.eqb k k' then Some v else member k ms'
  end.

(** ** Python values, as [json.loads] builds them from a response

    A JSON object becomes a dict keyed by strs, a number an int or a float
    (binary64), [true]/[false]/[null] become [True]/[False]/[None]. *)

Inductive pyval : Type :=
  | PNone
  | PBool (b : bool)
  | PInt (n : Z)
  | PFloat (f : float)
  | PStr (s : string)
  | PList (items : list pyval)
  | PDict (d : gmap string pyval).

(** Modelled from the spec: [MethodNotFoundError] and [StatusCodeError], the
    two classes of [monerowallet/exceptions.py], which the source imports and
    which is not among the source files; each is built from the one message
    given where it is raised.  The other exceptions a call can end with are
    Python's own ([ValueError] is what [req.json()] raises on a body that is
    not JSON, [RequestException] what [requests.post] raises when the
    transport fails). *)
Inductive exn : Type :=
  | MethodNotFoundError (message : string)
  | StatusCodeError (message : string)
  | KeyError (key : string)
  | TypeError
  | AttributeError
  | ValueError
  | RequestException.

Inductive outcome (A : Type) : Type :=
  | Return (a : A)
  | Raise (e : exn).
Arguments Return {A} a.
Arguments Raise {A} e.

(** [t in s] for two strs: [t] occurs in [s]. *)
Fixpoint occurs (t s : string) : bool :=
  String.prefix t s ||
  match s with
  | EmptyString => false
  | String _ s' => occurs t s'
  end.

(** [v == s] for a str literal [s]: only an equal str is equal to it. *)
Definition py_eq_str (v : pyval) (s : string) : bool :=
  match v with
  | PStr t => String.eqb t s
  | _ => false
  end.

(** A float equals an int when its exact value is that integer. *)
Definition float_eq_int (f : float) (n : Z) : bool :=
  match Prim2SF f with
  | S754_zero _ => n =? 0
  | S754_finite s m e =>
      let v := if s then Z.neg m else Z.pos m in
      if 0 <=? e then v * 2 ^ e =? n else v =? n * 2 ^ (- e)
  | _ => false
  end.

(** [v == n] for an int literal [n]: ints, bools (as 0 and 1) and floats
    compare by value, everything else differs. *)
Definition py_eq_int (v : pyval) (n : Z) : bool :=
  match v with
  | PInt m => m =? n
  | PBool b => (if b then 1 else 0) =? n
  | PFloat f => float_eq_int f n
  | _ => false
  end.

(** [key in v] for a str [key]: membership of the key in a dict, of an equal
    item in a list, of the text in a str; the other values are not
    containers. *)
Definition py_in (key : string) (v : pyval) : outcome bool :=
  match v with
  | PDict d => Return (bool_decide (is_Some (d !! key)))
  | PList items => Return (existsb (fun x => py_eq_str x key) items)
  | PStr s => Return (occurs key s)
  | _ => Raise TypeError
  end.

(** [v[key]] for a str [key]: only a dict can be indexed by a str. *)
Definition py_getitem (v : pyval) (key : string) : outcome pyval :=
  match v with
  | PDict d =>
      match d !! key with
      | Some x => Return x
      | None => Raise (KeyError key)
      end
  | _ => Raise TypeError
  end.

(** ** The object, the wire and the monad of a call *)

(** [self.server], the dict of four entries that [__init__] builds and no
    method writes to. *)
Record server_config : Type := {
  protocol : string;
  host : string;
  port : Z;
  path : string
}.

(** The attributes of a [MoneroWallet]; [headers] exists once a request has
    been sent. *)
Record MoneroWallet : Type := {
  server : server_config;
  headers : option (gmap string string)
}.

Record request : Type := {
  req_url : string;
  req_headers : gmap string string;
  req_data : bytes
}.

(** What [requests.post] gives back: an exception when the transport fails,
    else a response, whose [json()] is a value or fails. *)
Inductive reply : Type :=
  | Unreachable
  | Response (parsed : option pyval).

Definition network : Type := string -> gmap string string -> bytes -> reply.

(** The state a call runs in: the object, the requests handed to
    [requests.post] so far, the lines printed so far. *)
Record state : Type := {
  this : MoneroWallet;
  wire : list request;
  stdout : list string
}.

#[export] Instance outcome_ret : MRet outcome := fun A a => Return a.
#[export] Instance outcome_bind : MBind outcome := fun A B k o =>
  match o with
  | Return a => k a
  | Raise e => Raise e
  end.

Definition M (A : Type) : Type := state -> outcome A * state.

#[export] Instance M_ret : MRet M := fun A a st => (Return a, st).
#[export] Instance M_bind : MBind M := fun A B k m st =>
  match m st with
  | (Return a, st') => k a st'
  | (Raise e, st') => (Raise e, st')
  end.

Definition raise {A : Type} (e : exn) : M A := fun st => (Raise e, st).

Definition lift {A : Type} (o : outcome A) : M A := fun st => (o, st).

Definition get_server : M server_config := fun st => (Return (server (this st)), st).

Definition set_headers (h : gmap string string) : M unit := fun st =>
  (Return tt,
   {| this := {| server := server (this st); headers := Some h |};
      wire := wire st; stdout := stdout st |}).

Definition get_headers : M (gmap string string) := fun st =>
  match headers (this st) with
  | Some h => (Return h, st)
  | None => (Raise AttributeError, st)
  end.

Definition MoneroWallet_init (protocol host : string) (port : Z) (path : string)
  : MoneroWallet :=
  {| server := {| protocol := protocol; host := host; port := port; path := path |};
     headers := None |}.

(** [MoneroWallet()] with the defaults of [__init__]. *)
Definition MoneroWallet_default : MoneroWallet :=
  MoneroWallet_init "http" "127.0.0.1" 18082 "/json_rpc".

(** [{'Content-Type': 'application/json'}] *)
Definition json_headers : gmap string string :=
  {[ "Content-Type" := "application/json" ]}.

(** ['{protocol}://{host}:{port}{path}'.format(...)] *)
Definition format_url (s : server_config) : string :=
  protocol s +:+ "://" +:+ host s +:+ ":" +:+ str_int (port s) +:+ path s.

(** The public methods, with their arguments (the defaults of the source
    are [incoming_transfers "all"], [query_key "mnemonic"] and
    [make_integrated_address EmptyString]). *)
Inductive operation : Type :=
  | Getbalance
  | Getaddress
  | Getheight
  | Transfer
  | Transfer_split
  | Sweep_dust
  | Store
  | Get_payments (payment_id : string)
  | Get_bulk_payments (payment_ids : list string) (min_block_height : Z)
  | Incoming_transfers (transfer_type : string)
  | Query_key (key_type : string)
  | Make_integrated_address (payment_id : string)
  | Split_integrated_address
  | Stop_wallet.

Section Dispatch.

(** [py_str] is Python's [str] on a parsed response (its text depends on
    float formatting and Unicode tables, which are not modelled); [net] is
    the server behind [requests.post]. *)
Variable py_str : pyval -> string.
Variable net : network.

Definition requests_post (url : string) (hdrs : gmap string string) (data : bytes)
  : M reply := fun st =>
  let st' := {| this := this st;
                wire := wire st ++ [{| req_url := url; req_headers := hdrs;
                                       req_data := data |}];
                stdout := stdout st |} in
  match net url hdrs data with
  | Unreachable => (Raise RequestException, st')
  | r => (Return r, st')
  end.

Definition response_json (req : reply) : M pyval :=
  match req with
  | Response (Some v) => mret v
  | _ => raise ValueError
  end.

Definition print (v : pyval) : M unit := fun st =>
  (Return tt,
   {| this := this st; wire := wire st; stdout := stdout st ++ [py_str v] |}).

(** Lines 289-291: the test on the [error] entry. *)
Definition check_error (result : pyval) (jsoncontent : bytes) : outcome unit :=
  has_error ← py_in "error" result;
  if (has_error : bool) then
    e ← py_getitem result "error";
    m ← py_getitem e "message";
    if py_eq_str m "Method not found" then
      Raise (MethodNotFoundError
               ("Unexpected method while requesting the server: "
                +:+ str_bytes jsoncontent))
    else Return tt
  else Return tt.

(** Lines 292-293: the test on the [status] entry. *)
Definition check_status (result : pyval) : outcome unit :=
  status ← py_getitem result "status";
  if negb (py_eq_int status 200) then
    Raise (StatusCodeError ("Unexpected returned status code: " +:+ py_str result))
  else Return tt.

(** [__sendrequest]: the function ends after the second test, so a call
    that raises nothing returns [None]. *)
Definition sendrequest (jsoncontent : bytes) : M pyval :=
  set_headers json_headers;;
  srv ← get_server;
  hdrs ← get_headers;
  req ← requests_post (format_url srv) hdrs jsoncontent;
  v ← response_json req;
  print v;;
  result ← response_json req;
  lift (check_error result jsoncontent);;
  lift (check_status result);;
  mret PNone.

Definition getbalance : M pyval :=
  let jsoncontent := py "{\n  'jsonrpc':'2.0',\n  'id':'0',\n  'method':'getbalance'\n}\n" in
  sendrequest jsoncontent.

Definition getaddress : M pyval :=
  let jsoncontent := py "{\n  'jsonrpc':'2.0',\n  'id':'0',\n  'method':'getaddress'\n}\n" in
  sendrequest jsoncontent.

Definition getheight : M pyval :=
  let jsoncontent := py "{\n  'jsonrpc':'2.0',\n  'id':'0',\n  'method':'getheight'\n}\n" in
  sendrequest jsoncontent.

(** [pass] *)
Definition transfer : M pyval := mret PNone.

Definition transfer_split : M pyval := mret PNone.

Definition sweep_dust : M pyval :=
  let jsoncontent := py "{\n  'jsonrpc':'2.0',\n  'id':'0',\n  'method':'sweep_dust'\n}\n" in
  sendrequest jsoncontent.

Definition store : M pyval :=
  let jsoncontent := py "{\n  'jsonrpc':'2.0',\n  'id':'0',\n  'method':'store'\n}\n" in
  sendrequest jsoncontent.

Definition get_payments (payment_id : string) : M pyval :=
  let jsoncontent := py "{\n  'jsonrpc':'2.0',\n  'id':'0',\n  'method':'get_payments',\n  'params':\n    {\n        'payment_id':'PAYMENTID'\n    }\n}\n" in
  let jsoncontent := replace "PAYMENTID" (encode payment_id) jsoncontent in
  sendrequest jsoncontent.

Definition get_bulk_payments (payment_ids : list string) (min_block_height : Z)
  : M pyval :=
  let jsoncontent := py "{\n  'jsonrpc':'2.0',\n  'id':'0',\n  'method':'get_bulk_payments',\n  'params':\n    {\n      'payment_ids':[PAYMENTIDS],\n      'min_block_height':HEIGHT\n    }\n}\n" in
  let payments_list := map quoted payment_ids in
  let payments_to_str := join "," payments_list in
  let jsoncontent := replace "PAYMENTIDS" (encode payments_to_str) jsoncontent in
  let jsoncontent := replace "HEIGHT" (encode (str_int min_block_height)) jsoncontent in
  sendrequest jsoncontent.

Definition incoming_transfers (transfer_type : string) : M pyval :=
  let jsoncontent := py "{\n  'jsonrpc':'2.0',\n  'id':'0',\n  'method':'incoming_transfers',\n  'params':\n    {\n      'transfer_type':'TYPE'\n    }\n}\n" in
  let jsoncontent := replace "TYPE" (encode transfer_type) jsoncontent in
  sendrequest jsoncontent.

Definition query_key (key_type : string) : M pyval :=
  let jsoncontent := py "{\n  'jsonrpc':'2.0',\n  'id':'0',\n  'method':'query_key',\n  'params':\n    {\n      'key_type':'KEYTYPE'\n    }\n}\n" in
  let jsoncontent := replace "KEYTYPE" (encode key_type) jsoncontent in
  sendrequest jsoncontent.

Definition make_integrated_address (payment_id : string) : M pyval :=
  let jsoncontent :=
    match payment_id with
    | EmptyString =>
        py "{\n  'jsonrpc':'2.0',\n  'id':'0','method':\n  'make_integrated_address',\n    'params':\n      {\n        'payment_id':''\n      }\n}\n"
    | String _ _ =>
        let jsoncontent := py "{\n  'jsonrpc':'2.0',\n  'id':'0','method':\n  'make_integrated_address',\n    'params':\n      {\n        'payment_id':'PAYMENTID'\n      }\n}\n" in
        replace "PAYMENTID" (encode payment_id) jsoncontent
    end in
  sendrequest jsoncontent.

Definition split_integrated_address : M pyval := mret PNone.

Definition stop_wallet : M pyval :=
  let jsoncontent := py "{\n  'jsonrpc':'2.0',\n  'id':'0',\n  'method':'stop_wallet'\n}\n" in
  sendrequest jsoncontent.

Definition call (op : operation) : M pyval :=
  match op with
  | Getbalance => getbalance
  | Getaddress => getaddress
  | Getheight => getheight
  | Transfer => transfer
  | Transfer_split => transfer_split
  | Sweep_dust => sweep_dust
  | Store => store
  | Get_payments payment_id => get_payments payment_id
  | Get_bulk_payments payment_ids min_block_height =>
      get_bulk_payments payment_ids min_block_height
  | Incoming_transfers transfer_type => incoming_transfers transfer_type
  | Query_key key_type => query_key key_type
  | Make_integrated_address payment_id => make_integrated_address payment_id
  | Split_integrated_address => split_integrated_address
  | Stop_wallet => stop_wallet
  end.

End Dispatch.

(** The three methods whose body is [pass] send nothing; the others end in a
    call of [__sendrequest]. *)
Definition implemented (op : operation) : bool :=
  match op with
  | Transfer | Transfer_split | Split_integrated_address => false
  | _ => true
  end.

(** A server that answers every request with the same parsed response. *)
Definition simulated (r : pyval) : network := fun _ _ _ => Response (Some r).

(** The request a client in state [st] sends for [body], and the state once
    the answer [r] has been read and printed. *)
Definition request_for (st : state) (body : bytes) : request :=
  {| req_url := format_url (server (this st));
     req_headers := json_headers;
     req_data := body |}.

Definition after_request (py_str : pyval -> string) (body : bytes) (r : pyval)
  (st : state) : state :=
  {| this := {| server := server (this st); headers := Some json_headers |};
     wire := wire st ++ [request_for st body];
     stdout := stdout st ++ [py_str r] |}.

(** A client just built by its constructor, nothing sent or printed yet. *)
Definition new_client (w : MoneroWallet) : state :=
  {| this := w; wire := []; stdout := [] |}.

(** Calls one after the other on the same object, the caller going on after
    an exception. *)
Fixpoint run_all (py_str : pyval -> string) (net : network) (ops : list operation)
  (st : state) : state :=
  match ops with
  | [] => st
  | op :: ops' => run_all py_str net ops' (snd (call py_str net op st))
  end.

(** [make_integrated_address] with one code path, as the spec words it: the
    supplied id always put in the place of the placeholder. *)
Definition make_integrated_address_single_path (py_str : pyval -> string)
  (net : network) (payment_id : string) : M pyval :=
  let jsoncontent := py "{\n  'jsonrpc':'2.0',\n  'id':'0','method':\n  'make_integrated_address',\n    'params':\n      {\n        'payment_id':'PAYMENTID'\n      }\n}\n" in
  let jsoncontent := replace "PAYMENTID" (encode payment_id) jsoncontent in
  sendrequest py_str net jsoncontent.

(** The call [m], run in [st], hands exactly one request to the transport,
    with [body] as its data. *)
Definition sends (m : M pyval) (st : state) (body : bytes) : Prop :=
  wire (snd (m st)) = (wire st ++ [request_for st body])%list.

(** The request envelope of the spec: version 2.0, id 0, the method name and,
    when the method has parameters, [params]. *)
Definition envelope (method : string) (params : option json) : json :=
  JObj ([("jsonrpc", JStr "2.0"); ("id", JStr "0"); ("method", JStr method)]
        ++ match params with
           | Some p => [("params", p)]
           | None => []
           end)%list.

(** The six operations without parameters, each with its method name. *)
Definition parameterless : list (operation * string) :=
  [(Getbalance, "getbalance"); (Getaddress, "getaddress"); (Getheight, "getheight");
   (Store, "store"); (Stop_wallet, "stop_wallet"); (Sweep_dust, "sweep_dust")].

(** Texts made of bytes a JSON string takes as they are, and texts made of
    the characters of an integer. *)
Fixpoint plain_text (s : string) : bool :=
  match s with
  | EmptyString => true
  | String c s' => plain_char c && plain_text s'
  end.

Fixpoint num_text (s : string) : bool :=
  match s with
  | EmptyString => true
  | String c s' => is_num_char c && num_text s'
  end.

(** The [error] entry is absent, or it is an object whose [message] is
    something other than the text the client looks for. *)
Definition error_absent_or_other (r : pyval) : Prop :=
  py_in "error" r = Return false
  \/ exists e m, py_getitem r "error" = Return e
                 /\ py_getitem e "message" = Return m
                 /\ py_eq_str m "Method not found" = false.

(** Sample responses: the one of the docstring of [getheight], a refusal of
    the method, a server failure, an error the client does not look for, and
    three shapes the client is not prepared for. *)
Definition height_response : pyval :=
  PDict {[ "status" := PInt 200;
           "result" := PDict {[ "height" := PInt 1146043 ]} ]}.

Definition method_not_found_error : pyval :=
  PDict {[ "message" := PStr "Method not found" ]}.

Definition method_not_found_response : pyval :=
  PDict {[ "status" := PInt 500; "error" := method_not_found_error ]}.

Definition status_500_response : pyval :=
  PDict {[ "status" := PInt 500; "result" := PDict ∅ ]}.

Definition busy_error : pyval := PDict {[ "message" := PStr "Wallet is busy" ]}.

Definition busy_response : pyval :=
  PDict {[ "status" := PInt 200; "error" := busy_error ]}.

Definition bare_error_response : pyval :=
  PDict {[ "status" := PInt 500; "error" := PDict {[ "code" := PInt (-32603) ]} ]}.

Definition null_error_response : pyval :=
  PDict {[ "result" := PDict {[ "height" := PInt 1146043 ]}; "error" := PNone ]}.

Definition no_status_response : pyval :=
  PDict {[ "result" := PDict {[ "height" := PInt 1146043 ]} ]}.

(** A rendering of values to run the samples with: every value prints as
    the empty text. *)
Definition no_text : pyval -> string := fun _ => EmptyString.

(** A transport that fails for every request, and a server whose answers are
    not JSON. *)
Definition unreachable : network := fun _ _ _ => Unreachable.

Definition not_json : network := fun _ _ _ => Response None.

(** The state once a request for [body] has gone out and no answer has been
    read. *)
Definition after_attempt (body : bytes) (st : state) : state :=
  {| this := {| server := server (this st); headers := Some json_headers |};
     wire := wire st ++ [request_for st body];
     stdout := stdout st |}.


(** An object under construction whose first member is [m0], and an object
    under construction that already holds, after the members [outer], a
    member [pkey] whose value is an object with first member [m0]. *)
Definition marked_frame (m0 : string * json) (f : frame) : Prop :=
  match f with
  | FObj ms | FKey ms _ => exists ms', ms = (ms' ++ [m0])%list
  | FArr _ => False
  end.

Definition closed_frame (outer : list (string * json)) (pkey : string)
  (m0 : string * json) (f : frame) : Prop :=
  match f with
  | FObj ms | FKey ms _ =>
      exists ms' tl, ms = (ms' ++ (pkey, JObj (m0 :: tl)) :: outer)%list
  | FArr _ => False
  end.

(** The states of a reader from which every reading that is reached has, as
    value of the member [pkey], an object whose first member is [m0]. *)
Definition marked (outer : list (string * json)) (pkey : string)
  (m0 : string * json) (p : parser) : Prop :=
  (exists stk f, fst p = (stk ++ [f; FKey outer pkey])%list /\ marked_frame m0 f)
  \/ (exists stk f, fst p = (stk ++ [f])%list /\ closed_frame outer pkey m0 f)
  \/ (fst p = []
      /\ exists more tl,
           snd p = PDone (JObj (rev outer ++ (pkey, JObj (m0 :: tl)) :: more)%list)).

(** A text with double quotes in it. *)
Definition text_with_quotes : string := py "a','b':'c".

(** Two more sample responses: a text, as a gateway in front of the server
    may answer, and a status sent as a text. *)
Definition text_response : pyval := PStr "Internal Server Error".

Definition text_status_response : pyval := PDict {[ "status" := PStr "200" ]}.

(** ** The definitions at work *)

Example py_example :
  py "{\n 'id':'0'\n}" =
  String "{" (String LF (" " +:+ String dquote ("id" +:+ String dquote (":" +:+
    String dquote ("0" +:+ String dquote (String LF "}")))))).
Proof. reflexivity. Qed.

Example replace_example : replace "ab" "X" "cababa" = "cXXa".
Proof. reflexivity. Qed.

Example replace_example_overlap : replace "aa" "b" "aaa" = "ba".
Proof. reflexivity. Qed.

Example replace_example_empty : replace EmptyString "-" "ab" = "-a-b-".
Proof. reflexivity. Qed.

Example str_int_examples :
  str_int 100 = "100" /\ str_int 0 = "0" /\ str_int (-5) = "-5".
Proof. repeat split. Qed.

Example str_bytes_example :
  str_bytes (py "{\n 'a'}") = "b'{\n " +:+ String dquote ("a" +:+ String dquote "}'").
Proof. reflexivity. Qed.

Example py_eq_int_examples :
  py_eq_int (PInt 200) 200 = true /\ py_eq_int (PFloat 200%float) 200 = true
  /\ py_eq_int (PFloat 200.5%float) 200 = false /\ py_eq_int (PStr "200") 200 = false
  /\ py_eq_int (PBool true) 1 = true /\ py_eq_int PNone 200 = false.
Proof. vm_compute. repeat split. Qed.

Example read_json_example :
  read_json (py "{ 'a' : [1, -20, 'x'], 'b':{}, 'c':null }") =
  Some (JObj [("a", JArr [JInt 1; JInt (-20); JStr "x"]); ("b", JObj []); ("c", JNull)]).
Proof. vm_compute. reflexivity. Qed.

Example read_json_scalars :
  read_json " 42 " = Some (JInt 42) /\ read_json "-7" = Some (JInt (-7))
  /\ read_json "true" = Some (JBool true) /\ read_json (py "'a b'") = Some (JStr "a b")
  /\ read_json "[]" = Some (JArr []) /\ read_json "{ }" = Some (JObj [])
  /\ read_json (py "[[],{'a':[{}]}]") = Some (JArr [JArr []; JObj [("a", JArr [JObj []])]]).
Proof. vm_compute. repeat split. Qed.

Example read_json_refuses :
  read_json "1.5" = None /\ read_json "007" = None /\ read_json "-0" = None
  /\ read_json (py "['a\\b']") = None /\ read_json (py "{'a':1,}") = None
  /\ read_json "[1] x" = None /\ read_json "[1,]" = None /\ read_json "[,1]" = None
  /\ read_json (py "{'a' 1}") = None /\ read_json (py "{'a':1 'b':2}") = None
  /\ read_json (py "{1:2}") = None /\ read_json (py "['a':1]") = None
  /\ read_json "[1 2]" = None /\ read_json "1 2" = None /\ read_json "[1" = None
  /\ read_json "]" = None /\ read_json "[}" = None /\ read_json (py "{'a':}") = None
  /\ read_json EmptyString = None /\ read_json "truefalse" = None
  /\ read_json (py "'a") = None /\ read_json (py "{'a':1}}") = None
  /\ read_json "1-2" = None /\ read_json "-" = None /\ read_json (py "{'a'}") = None.
Proof. vm_compute. repeat split. Qed.

(** ** The text of a bytes object determines it *)

Lemma append_assoc (a b c : string) : (a +:+ b) +:+ c = a +:+ b +:+ c.
Proof. induction a as [|x a IH]; simpl; [reflexivity|]. rewrite IH. reflexivity. Qed.

Lemma append_nil_r (a : string) : a +:+ EmptyString = a.
Proof. induction a as [|x a IH]; simpl; [reflexivity|]. rewrite IH. reflexivity. Qed.

Lemma unrepr_byte (quote c : ascii) (tail t r : string) :
  quote = squote \/ quote = dquote ->
  unrepr quote tail = Some (t, r) ->
  unrepr quote (repr_byte quote c +:+ tail) = Some (String c t, r).
Proof.
  intros Hq H.
  transitivity ('(t0, r0) ← unrepr quote tail; Some (String c t0, r0));
    [|rewrite H; reflexivity].
  destruct Hq as [-> | ->];
    destruct c as [[] [] [] [] [] [] [] []]; reflexivity.
Qed.

Lemma unrepr_repr (quote : ascii) (s rest : string) :
  quote = squote \/ quote = dquote ->
  unrepr quote (repr_bytes_body quote s +:+ String quote rest) = Some (s, rest).
Proof.
  intros Hq. induction s as [|c s IH].
  - destruct Hq as [-> | ->]; reflexivity.
  - change (repr_bytes_body quote (String c s))
      with (repr_byte quote c +:+ repr_bytes_body quote s).
    rewrite append_assoc. apply unrepr_byte; assumption.
Qed.

Lemma bytes_quote_cases (s : bytes) : bytes_quote s = squote \/ bytes_quote s = dquote.
Proof. unfold bytes_quote. destruct (_ && _); auto. Qed.

Lemma str_bytes_inj (a b : bytes) : str_bytes a = str_bytes b -> a = b.
Proof.
  unfold str_bytes. intros H. injection H as Hq Hbody.
  assert (E := f_equal (unrepr (bytes_quote a)) Hbody).
  rewrite <- Hq in E.
  rewrite !unrepr_repr in E by apply bytes_quote_cases.
  congruence.
Qed.

(** ** The dispatch routine *)

Section DispatchFacts.

Variable py_str : pyval -> string.

Lemma sendrequest_answered (net : network) (body : bytes) (st : state) (r : pyval) :
  net (format_url (server (this st))) json_headers body = Response (Some r) ->
  sendrequest py_str net body st =
    (check_error r body;; check_status py_str r;; Return PNone,
     after_request py_str body r st).
Proof.
  intros Hnet. unfold sendrequest, mbind, M_bind, set_headers, get_server,
    get_headers, requests_post, response_json, print, lift, mret, M_ret.
  cbn. rewrite Hnet. cbn.
  destruct (check_error r body) as [[]|e]; cbn; [|reflexivity].
  destruct (check_status py_str r) as [[]|e]; reflexivity.
Qed.

Lemma sendrequest_simulated (body : bytes) (st : state) (r : pyval) :
  sendrequest py_str (simulated r) body st =
    (check_error r body;; check_status py_str r;; Return PNone,
     after_request py_str body r st).
Proof. apply sendrequest_answered. reflexivity. Qed.

Lemma call_implemented (net : network) (op : operation) :
  implemented op = true ->
  exists body, call py_str net op = sendrequest py_str net body.
Proof.
  destruct op; cbn; intros H; try discriminate H; eexists; reflexivity.
Qed.

End DispatchFacts.

(** ** What a call returns and raises *)

Section Outcomes.

Variable py_str : pyval -> string.

Lemma sendrequest_server (net : network) (body : bytes) (st : state) :
  server (this (snd (sendrequest py_str net body st))) = server (this st).
Proof.
  unfold sendrequest, mbind, M_bind, set_headers, get_server, get_headers,
    requests_post, response_json, print, lift, mret, M_ret, raise.
  cbn. destruct (net _ _ body) as [|[r|]]; cbn; try reflexivity.
  destruct (check_error r body) as [[]|e]; cbn; [|reflexivity].
  destruct (check_status py_str r) as [[]|e]; reflexivity.
Qed.

Lemma call_server (net : network) (op : operation) (st : state) :
  server (this (snd (call py_str net op st))) = server (this st).
Proof. destruct op; cbn; solve [reflexivity | apply sendrequest_server]. Qed.

Lemma check_error_absent_or_other (r : pyval) (body : bytes) :
  error_absent_or_other r -> check_error r body = Return tt.
Proof.
  unfold check_error. intros [Hin | (e & m & He & Hm & Hneq)].
  - rewrite Hin. reflexivity.
  - destruct r; try discriminate He. cbn in He |- *.
    destruct (d !! "error") as [x|] eqn:Hd; [|discriminate He].
    injection He as ->.
    rewrite bool_decide_true by eauto. cbn. rewrite Hm. cbn.
    rewrite Hneq. reflexivity.
Qed.

Lemma sendrequest_returns_None (body : bytes) (st : state) (r status : pyval) :
  py_in "error" r = Return false ->
  py_getitem r "status" = Return status ->
  py_eq_int status 200 = true ->
  sendrequest py_str (simulated r) body st = (Return PNone, after_request py_str body r st).
Proof.
  intros Hin Hst H200. rewrite sendrequest_simulated.
  unfold check_error, check_status. rewrite Hin, Hst. cbn. rewrite H200. reflexivity.
Qed.

(** C1: run against the simulated response of the docstring, status 200 and
    no error entry, [getheight()] raises nothing and returns [None], which is
    not the parsed response: [__sendrequest] ends without a [return]. *)
Theorem getheight_returns_None :
  call py_str (simulated height_response) Getheight (new_client MoneroWallet_default)
  = (Return PNone,
     after_request py_str
       (py "{\n  'jsonrpc':'2.0',\n  'id':'0',\n  'method':'getheight'\n}\n")
       height_response (new_client MoneroWallet_default))
  /\ PNone <> height_response.
Proof.
  split; [|discriminate].
  apply sendrequest_returns_None with (status := PInt 200); reflexivity.
Qed.

(** C2: whatever the operation that dispatches, when the parsed response has
    an [error] whose [message] is the text Method not found, the call raises
    [MethodNotFoundError] with a message built from the very body it sent,
    and from which that body can be read back; nothing is asked of [status],
    which is read only after this test. *)
Theorem method_not_found_raised (op : operation) (st : state) (r e : pyval) :
  implemented op = true ->
  py_getitem r "error" = Return e ->
  py_getitem e "message" = Return (PStr "Method not found") ->
  exists body,
    call py_str (simulated r) op st
    = (Raise (MethodNotFoundError
                ("Unexpected method while requesting the server: " +:+ str_bytes body)),
       after_request py_str body r st)
    /\ forall other, str_bytes other = str_bytes body -> other = body.
Proof.
  intros Hop He Hm. destruct (call_implemented py_str (simulated r) op Hop) as [body ->].
  exists body. split; [|intros other; apply str_bytes_inj].
  rewrite sendrequest_simulated. unfold check_error.
  destruct r; try discriminate He. cbn in He |- *.
  destruct (d !! "error") as [x|] eqn:Hd; [|discriminate He].
  injection He as ->. rewrite bool_decide_true by eauto. cbn. rewrite Hm. reflexivity.
Qed.

(** C3, amended: whatever the operation that dispatches, when the parsed
    response has a [status] different from 200 and its [error] is absent, or
    is an object with a [message] other than Method not found, the call
    raises [StatusCodeError] with a message built from the whole parsed
    response. *)
Theorem status_code_error_raised (op : operation) (st : state) (r status : pyval) :
  implemented op = true ->
  py_getitem r "status" = Return status ->
  py_eq_int status 200 = false ->
  error_absent_or_other r ->
  exists body,
    call py_str (simulated r) op st
    = (Raise (StatusCodeError ("Unexpected returned status code: " +:+ py_str r)),
       after_request py_str body r st).
Proof.
  intros Hop Hst H200 Herr.
  destruct (call_implemented py_str (simulated r) op Hop) as [body ->].
  exists body. rewrite sendrequest_simulated.
  rewrite (check_error_absent_or_other r body Herr).
  unfold check_status. rewrite Hst. cbn. rewrite H200. reflexivity.
Qed.

(** C4: when the parsed response has an [error] whose [message] is not the
    text Method not found, the test on [error] raises nothing, the outcome of
    the call is the outcome of the test on [status], and with a [status] of
    200 every dispatching operation completes without raising. *)
Theorem unrecognised_error_ignored (r e m : pyval) :
  py_getitem r "error" = Return e ->
  py_getitem e "message" = Return m ->
  py_eq_str m "Method not found" = false ->
  (forall body, check_error r body = Return tt)
  /\ (forall body st,
        sendrequest py_str (simulated r) body st
        = (check_status py_str r;; Return PNone, after_request py_str body r st))
  /\ (forall status op st,
        py_getitem r "status" = Return status ->
        py_eq_int status 200 = true ->
        implemented op = true ->
        fst (call py_str (simulated r) op st) = Return PNone).
Proof.
  intros He Hm Hneq.
  assert (Herr : error_absent_or_other r) by (right; eauto).
  split; [|split].
  - intros body. apply check_error_absent_or_other, Herr.
  - intros body st. rewrite sendrequest_simulated.
    rewrite (check_error_absent_or_other r body Herr). reflexivity.
  - intros status op st Hst H200 Hop.
    destruct (call_implemented py_str (simulated r) op Hop) as [body ->].
    rewrite sendrequest_simulated, (check_error_absent_or_other r body Herr).
    unfold check_status. rewrite Hst. cbn. rewrite H200. reflexivity.
Qed.

(** C8: the four entries of [self.server] are those given to the
    constructor, and no call changes them, whatever the operation, its
    arguments, the server and the state, also over any sequence of calls. *)
Theorem server_configuration_unchanged (net : network) :
  (forall protocol host port path,
      server (MoneroWallet_init protocol host port path)
      = {| protocol := protocol; host := host; port := port; path := path |})
  /\ (forall op st, server (this (snd (call py_str net op st))) = server (this st))
  /\ (forall ops st, server (this (run_all py_str net ops st)) = server (this st))
  /\ (forall ops st,
        format_url (server (this (run_all py_str net ops st)))
        = format_url (server (this st))).
Proof.
  assert (Hall : forall ops st,
             server (this (run_all py_str net ops st)) = server (this st)).
  { induction ops as [|op ops IH]; intros st; cbn; [reflexivity|].
    rewrite IH. apply call_server. }
  repeat split.
  - apply call_server.
  - exact Hall.
  - intros ops st. rewrite Hall. reflexivity.
Qed.

(** C9: [transfer], [transfer_split] and [split_integrated_address] return
    [None] and leave the state as it was: no request is sent, nothing is
    raised. *)
Theorem unimplemented_operations (net : network) (st : state) :
  call py_str net Transfer st = (Return PNone, st)
  /\ call py_str net Transfer_split st = (Return PNone, st)
  /\ call py_str net Split_integrated_address st = (Return PNone, st).
Proof. repeat split. Qed.

(** C10, amended: when the parsed response is an object without a [status]
    and its [error] is absent, or is an object with a [message] other than
    Method not found, the test on [error] passes and the test on [status]
    fails with [KeyError], which is what the call raises; with a [status]
    present that test returns or raises [StatusCodeError], nothing else. *)
Theorem missing_status_key_error (op : operation) (st : state)
  (d : gmap string pyval) :
  implemented op = true ->
  d !! "status" = None ->
  error_absent_or_other (PDict d) ->
  (forall body, check_error (PDict d) body = Return tt)
  /\ check_status py_str (PDict d) = Raise (KeyError "status")
  /\ (exists body,
        call py_str (simulated (PDict d)) op st
        = (Raise (KeyError "status"), after_request py_str body (PDict d) st))
  /\ (forall r status,
        py_getitem r "status" = Return status ->
        check_status py_str r
        = if py_eq_int status 200 then Return tt
          else Raise (StatusCodeError
                        ("Unexpected returned status code: " +:+ py_str r))).
Proof.
  intros Hop Hd Herr.
  assert (Hst : check_status py_str (PDict d) = Raise (KeyError "status")).
  { unfold check_status. cbn. rewrite Hd. reflexivity. }
  split; [|split; [|split]].
  - intros body. apply check_error_absent_or_other, Herr.
  - exact Hst.
  - destruct (call_implemented py_str (simulated (PDict d)) op Hop) as [body ->].
    exists body. rewrite sendrequest_simulated.
    rewrite (check_error_absent_or_other _ body Herr), Hst. reflexivity.
  - intros r status Hr. unfold check_status. rewrite Hr. cbn.
    destruct (py_eq_int status 200); reflexivity.
Qed.

End Outcomes.

(** ** Texts with a part that is not known

    A body is a template around the arguments of the call.  The lemmas below
    take [replace] and the reader through the part that is an argument; the
    parts that are literals are computed. *)

(** *** Replacing around an argument *)

Lemma prefix_before (old s rest : string) (c : ascii) :
  contains_byte c old = false ->
  String.prefix old (s +:+ String c rest) = String.prefix old s.
Proof.
  revert s. induction old as [|o old IH]; intros s H.
  - destruct s; reflexivity.
  - simpl in H. apply orb_false_iff in H as [Hc Hold].
    destruct s as [|x s]; simpl.
    + destruct (ascii_dec o c) as [->|]; [|reflexivity].
      rewrite Ascii.eqb_refl in Hc. discriminate Hc.
    + destruct (ascii_dec o x); [apply IH, Hold|reflexivity].
Qed.

Lemma replace_from_before (o : ascii) (old new s rest : string) (c : ascii) :
  contains_byte c (String o old) = false ->
  occurs (String o old) s = false ->
  replace_from (String o old) new 0 (s +:+ String c rest)
  = s +:+ String c (replace_from (String o old) new 0 rest).
Proof.
  intros Hc. induction s as [|x s IH]; intros Hs.
  - change (replace_from (String o old) new 0 (String c rest)
            = String c (replace_from (String o old) new 0 rest)).
    cbn [replace_from].
    change (String c rest) with (EmptyString +:+ String c rest) at 1.
    rewrite (prefix_before _ EmptyString rest c Hc). reflexivity.
  - cbn [occurs] in Hs. apply orb_false_iff in Hs as [Hp Hs].
    change (String x s +:+ String c rest) with (String x (s +:+ String c rest)).
    cbn [replace_from].
    change (String x (s +:+ String c rest)) with (String x s +:+ String c rest) at 1.
    rewrite (prefix_before _ (String x s) rest c Hc), Hp, (IH Hs). reflexivity.
Qed.

Lemma replace_from_quoted (o : ascii) (old new : string) (ids : list string)
  (rest : string) (c : ascii) :
  contains_byte dquote (String o old) = false ->
  contains_byte "," (String o old) = false ->
  contains_byte c (String o old) = false ->
  Forall (fun i => occurs (String o old) i = false) ids ->
  replace_from (String o old) new 0 (join "," (map quoted ids) +:+ String c rest)
  = join "," (map quoted ids) +:+ String c (replace_from (String o old) new 0 rest).
Proof.
  intros Hq Hcomma Hc Hids.
  assert (Hone : forall i rest', occurs (String o old) i = false ->
            replace_from (String o old) new 0 (quoted i +:+ rest')
            = quoted i +:+ replace_from (String o old) new 0 rest').
  { intros i rest' Hi. unfold quoted.
    change (String dquote (i +:+ String dquote EmptyString) +:+ rest')
      with (EmptyString +:+ String dquote ((i +:+ String dquote EmptyString) +:+ rest')).
    rewrite (replace_from_before o old new EmptyString _ dquote Hq eq_refl).
    rewrite append_assoc.
    change (String dquote EmptyString +:+ rest') with (String dquote rest').
    rewrite (replace_from_before o old new i _ dquote Hq Hi).
    simpl. rewrite append_assoc. reflexivity. }
  induction Hids as [|i ids Hi Hids IH].
  - simpl. apply (replace_from_before o old new EmptyString rest c Hc eq_refl).
  - destruct ids as [|j ids].
    + change (join "," (map quoted [i])) with (quoted i).
      rewrite (Hone i _ Hi). f_equal.
      apply (replace_from_before o old new EmptyString rest c Hc eq_refl).
    + change (join "," (map quoted (i :: j :: ids)))
        with (quoted i +:+ "," +:+ join "," (map quoted (j :: ids))).
      rewrite !append_assoc. rewrite (Hone i _ Hi).
      change ("," +:+ join "," (map quoted (j :: ids)) +:+ String c rest)
        with (EmptyString
              +:+ String ","%char (join "," (map quoted (j :: ids)) +:+ String c rest)).
      rewrite (replace_from_before o old new EmptyString _ ","%char Hcomma eq_refl).
      rewrite IH. reflexivity.
Qed.

(** *** Reading around an argument *)

Lemma run_app (st : lexer * parser) (a b : bytes) :
  run st (a +:+ b) = st' ← run st a; run st' b.
Proof.
  revert st. induction a as [|c a IH]; intros st; simpl; [reflexivity|].
  destruct (feed st c) as [st'|]; simpl; [apply IH|reflexivity].
Qed.

Lemma plain_char_not_dquote (c : ascii) : plain_char c = true -> Ascii.eqb c dquote = false.
Proof. unfold plain_char. destruct (Ascii.eqb c dquote); [discriminate|reflexivity]. Qed.

Lemma run_plain (s acc : string) (p : parser) :
  plain_text s = true -> run (LStr acc, p) s = Some (LStr (acc +:+ s), p).
Proof.
  revert acc. induction s as [|c s IH]; intros acc H; simpl in *.
  - rewrite append_nil_r. reflexivity.
  - apply andb_true_iff in H as [Hc Hs].
    rewrite (plain_char_not_dquote c Hc), Hc. simpl.
    rewrite (IH _ Hs), append_assoc. reflexivity.
Qed.

Lemma run_quoted (i : string) (stack : list frame) (ph : phase) :
  plain_text i = true -> expects_value ph = true ->
  run (LIdle, (stack, ph)) (quoted i) = p ← deliver stack (JStr i); Some (LIdle, p).
Proof.
  intros Hi Hph. unfold quoted.
  change (run (LIdle, (stack, ph)) (String dquote (i +:+ String dquote EmptyString)))
    with (run (LStr EmptyString, (stack, ph)) (i +:+ String dquote EmptyString)).
  rewrite run_app, (run_plain i _ _ Hi). simpl.
  destruct ph; try discriminate Hph; destruct (deliver stack (JStr i)); reflexivity.
Qed.

Lemma run_quoted_list (i : string) (ids : list string) (items : list json)
  (stack : list frame) (ph : phase) :
  Forall (fun i => plain_text i = true) (i :: ids) -> expects_value ph = true ->
  run (LIdle, (FArr items :: stack, ph)) (join "," (map quoted (i :: ids)))
  = Some (LIdle, (FArr (rev (map JStr (i :: ids)) ++ items)%list :: stack, PNext)).
Proof.
  revert i items ph. induction ids as [|j ids IH]; intros i items ph Hall Hph.
  - change (join "," (map quoted [i])) with (quoted i).
    rewrite run_quoted; [reflexivity|by inversion Hall|done].
  - change (join "," (map quoted (i :: j :: ids)))
      with (quoted i +:+ "," +:+ join "," (map quoted (j :: ids))).
    inversion Hall as [|? ? Hi Hrest]; subst.
    rewrite !run_app, run_quoted by done.
    change (run (LIdle, (FArr (JStr i :: items) :: stack, PValue))
              (join "," (map quoted (j :: ids)))
            = Some (LIdle, (FArr (rev (map JStr (i :: j :: ids)) ++ items)%list :: stack,
                            PNext))).
    rewrite (IH j (JStr i :: items) PValue Hrest eq_refl).
    do 3 f_equal. f_equal. f_equal.
    change (map JStr (i :: j :: ids)) with (JStr i :: map JStr (j :: ids)).
    change (rev (JStr i :: map JStr (j :: ids)))
      with (rev (map JStr (j :: ids)) ++ [JStr i])%list.
    rewrite <- app_assoc. reflexivity.
Qed.

Lemma run_close_array (items : list json) (stack : list frame) (ph : phase)
  (rest : bytes) :
  ph = PValueOrClose \/ ph = PNext ->
  run (LIdle, (FArr items :: stack, ph)) (String "]" rest)
  = p ← deliver stack (JArr (rev items)); run (LIdle, p) rest.
Proof.
  intros [-> | ->].
  - change (run (LIdle, (FArr items :: stack, PValueOrClose)) (String "]" rest))
      with (st ← (p ← deliver stack (JArr (rev items)); Some (LIdle, p)); run st rest).
    destruct (deliver stack (JArr (rev items))); reflexivity.
  - change (run (LIdle, (FArr items :: stack, PNext)) (String "]" rest))
      with (st ← (p ← deliver stack (JArr (rev items)); Some (LIdle, p)); run st rest).
    destruct (deliver stack (JArr (rev items))); reflexivity.
Qed.

Lemma run_quoted_array (ids : list string) (stack : list frame) (rest : bytes) :
  Forall (fun i => plain_text i = true) ids ->
  run (LIdle, (FArr [] :: stack, PValueOrClose)) (join "," (map quoted ids) +:+ String "]" rest)
  = p ← deliver stack (JArr (map JStr ids)); run (LIdle, p) rest.
Proof.
  intros Hall. destruct ids as [|i ids].
  - change (join "," (map quoted []) +:+ String "]" rest) with (String "]" rest).
    rewrite run_close_array by (left; reflexivity). reflexivity.
  - rewrite run_app, (run_quoted_list i ids [] stack PValueOrClose Hall eq_refl).
    change (run (LIdle, (FArr (rev (map JStr (i :: ids)) ++ [])%list :: stack, PNext))
              (String "]" rest)
            = p ← deliver stack (JArr (map JStr (i :: ids))); run (LIdle, p) rest).
    rewrite run_close_array by (right; reflexivity).
    rewrite app_nil_r, rev_involutive. reflexivity.
Qed.

Lemma num_char_idle (c : ascii) (p : parser) :
  is_num_char c = true -> feed_idle p c = Some (LNum (String c EmptyString), p).
Proof.
  intros H. unfold feed_idle. rewrite H.
  assert (is_ws c = false) as ->.
  { destruct c as [[] [] [] [] [] [] [] []]; try reflexivity; discriminate H. }
  assert (Ascii.eqb c dquote = false) as ->.
  { destruct c as [[] [] [] [] [] [] [] []]; try reflexivity; discriminate H. }
  reflexivity.
Qed.

Lemma run_num (s acc : string) (p : parser) :
  num_text s = true -> run (LNum acc, p) s = Some (LNum (acc +:+ s), p).
Proof.
  revert acc. induction s as [|c s IH]; intros acc H; simpl in *.
  - rewrite append_nil_r. reflexivity.
  - apply andb_true_iff in H as [Hc Hs]. rewrite Hc. simpl.
    rewrite (IH _ Hs), append_assoc. reflexivity.
Qed.

Lemma num_text_uint (d : Decimal.uint) : num_text (NilEmpty.string_of_uint d) = true.
Proof. induction d; simpl; try rewrite IHd; reflexivity. Qed.

Lemma num_text_str_int (z : Z) : num_text (str_int z) = true.
Proof.
  unfold str_int, NilZero.string_of_int, NilZero.string_of_uint.
  destruct (Z.to_int z) as [d|d]; destruct d; try reflexivity;
    try apply num_text_uint; simpl; apply num_text_uint.
Qed.

Lemma str_int_nonempty (z : Z) : exists c s, str_int z = String c s.
Proof.
  unfold str_int, NilZero.string_of_int, NilZero.string_of_uint.
  destruct (Z.to_int z) as [d|d]; destruct d; simpl; eauto.
Qed.

Lemma run_str_int (z : Z) (p : parser) :
  run (LIdle, p) (str_int z) = Some (LNum (str_int z), p).
Proof.
  pose proof (num_text_str_int z) as H.
  destruct (str_int_nonempty z) as (c & s & E). rewrite E in *.
  simpl in H. apply andb_true_iff in H as [Hc Hs].
  simpl. rewrite (num_char_idle c p Hc). simpl.
  rewrite (run_num s _ p Hs). reflexivity.
Qed.

Lemma number_value_str_int (z : Z) : number_value (str_int z) = Some (JInt z).
Proof.
  unfold number_value, str_int.
  rewrite NilZero.isi.
  - simpl. rewrite DecimalZ.of_to, String.eqb_refl. reflexivity.
  - destruct z; simpl; try discriminate.
    intros [= H]. exact (Unsigned.to_uint_nonnil _ H).
  - destruct z; simpl; try discriminate.
    intros [= H]. exact (Unsigned.to_uint_nonnil _ H).
Qed.

(** A number under way ends at a line feed. *)
Lemma run_num_end (z : Z) (p : parser) (rest : bytes) :
  run (LNum (str_int z), p) (String LF rest)
  = p' ← take_scalar p (JInt z); run (LIdle, p') rest.
Proof.
  change (run (LNum (str_int z), p) (String LF rest))
    with (st ← (v ← number_value (str_int z); p' ← take_scalar p v; Some (LIdle, p'));
          run st rest).
  rewrite number_value_str_int. simpl.
  destruct (take_scalar p (JInt z)); reflexivity.
Qed.

Section ArrayAndNumber.

Variables (template pre close close' post : bytes) (stack : list frame).
Variable after_array : list json -> parser.
Variable result : list json -> Z -> json.

Hypothesis first_replaced : forall P,
  replace_from "PAYMENTIDS" P 0 template
  = pre +:+ String "[" (P +:+ String "]" close').
Hypothesis pre_clean : occurs "HEIGHT" pre = false.
Hypothesis close_replaced : forall hs,
  replace_from "HEIGHT" hs 0 close' = close +:+ hs +:+ String LF post.

Lemma replaced_array_and_number (ids : list string) (h : Z) :
  Forall (fun i => occurs "HEIGHT" i = false) ids ->
  replace "HEIGHT" (encode (str_int h))
    (replace "PAYMENTIDS" (encode (join "," (map quoted ids))) template)
  = pre +:+ String "[" (join "," (map quoted ids)
                        +:+ String "]" (close +:+ str_int h +:+ String LF post)).
Proof.
  intros Hids. unfold encode, replace.
  rewrite first_replaced.
  rewrite replace_from_before by (solve [reflexivity | exact pre_clean]).
  rewrite replace_from_quoted by (solve [reflexivity | exact Hids]).
  rewrite close_replaced. reflexivity.
Qed.

Hypothesis pre_read :
  run (LIdle, ([], PValue)) (pre +:+ String "[" EmptyString)
  = Some (LIdle, (FArr [] :: stack, PValueOrClose)).
Hypothesis close_read : forall arr,
  (p ← deliver stack (JArr arr); run (LIdle, p) close) = Some (LIdle, after_array arr).
Hypothesis post_read : forall arr h,
  (st ← (p ← take_scalar (after_array arr) (JInt h); run (LIdle, p) post); finish st)
  = Some (result arr h).

Lemma read_array_and_number (ids : list string) (h : Z) :
  Forall (fun i => plain_text i = true) ids ->
  read_json (pre +:+ String "[" (join "," (map quoted ids)
                                 +:+ String "]" (close +:+ str_int h +:+ String LF post)))
  = Some (result (map JStr ids) h).
Proof.
  intros Hids. unfold read_json.
  change (String "[" ?x) with (String "[" EmptyString +:+ x).
  rewrite <- append_assoc.
  rewrite run_app, pre_read. cbn [mbind option_bind].
  rewrite (run_quoted_array ids _ _ Hids).
  transitivity
    (st ← (st' ← (p ← deliver stack (JArr (map JStr ids)); run (LIdle, p) close);
           run st' (str_int h +:+ String LF post));
     finish st).
  { destruct (deliver stack (JArr (map JStr ids))) as [p|]; [|reflexivity].
    cbn [mbind option_bind]. rewrite run_app. reflexivity. }
  rewrite close_read. cbn [mbind option_bind].
  rewrite run_app, run_str_int. cbn [mbind option_bind].
  rewrite run_num_end. apply post_read.
Qed.

End ArrayAndNumber.

(** *** The bodies *)

Ltac compute_run :=
  match goal with
  | |- context [run ?st (py ?l)] =>
      let v := eval vm_compute in (run st (py l)) in
      replace (run st (py l)) with v by (vm_compute; reflexivity)
  end.

Lemma get_payments_body (id : string) :
  replace "PAYMENTID" (encode id)
    (py "{\n  'jsonrpc':'2.0',\n  'id':'0',\n  'method':'get_payments',\n  'params':\n    {\n        'payment_id':'PAYMENTID'\n    }\n}\n")
  = py "{\n  'jsonrpc':'2.0',\n  'id':'0',\n  'method':'get_payments',\n  'params':\n    {\n        'payment_id':'"
    +:+ id +:+ py "'\n    }\n}\n".
Proof. vm_compute. reflexivity. Qed.

Lemma get_payments_reads (id : string) :
  plain_text id = true ->
  read_json (py "{\n  'jsonrpc':'2.0',\n  'id':'0',\n  'method':'get_payments',\n  'params':\n    {\n        'payment_id':'"
    +:+ id +:+ py "'\n    }\n}\n")
  = Some (envelope "get_payments" (Some (JObj [("payment_id", JStr id)]))).
Proof.
  intros Hid. unfold read_json.
  rewrite run_app. compute_run. cbn [mbind option_bind].
  rewrite run_app, (run_plain _ _ _ Hid). cbn [mbind option_bind].
  vm_compute. reflexivity.
Qed.


Lemma get_bulk_payments_body (ids : list string) (h : Z) :
  Forall (fun i => occurs "HEIGHT" i = false) ids ->
  replace "HEIGHT" (encode (str_int h))
    (replace "PAYMENTIDS" (encode (join "," (map quoted ids)))
       (py "{\n  'jsonrpc':'2.0',\n  'id':'0',\n  'method':'get_bulk_payments',\n  'params':\n    {\n      'payment_ids':[PAYMENTIDS],\n      'min_block_height':HEIGHT\n    }\n}\n"))
  = py "{\n  'jsonrpc':'2.0',\n  'id':'0',\n  'method':'get_bulk_payments',\n  'params':\n    {\n      'payment_ids':"
    +:+ String "[" (join "," (map quoted ids)
                    +:+ String "]" (py ",\n      'min_block_height':"
                                    +:+ str_int h +:+ String LF (py "    }\n}\n"))).
Proof.
  apply (replaced_array_and_number _ _ _
           (py ",\n      'min_block_height':HEIGHT\n    }\n}\n")).
  - intros P. vm_compute. reflexivity.
  - vm_compute. reflexivity.
  - intros hs. vm_compute. reflexivity.
Qed.

Lemma get_bulk_payments_reads (ids : list string) (h : Z) :
  Forall (fun i => plain_text i = true) ids ->
  read_json
    (py "{\n  'jsonrpc':'2.0',\n  'id':'0',\n  'method':'get_bulk_payments',\n  'params':\n    {\n      'payment_ids':"
     +:+ String "[" (join "," (map quoted ids)
                     +:+ String "]" (py ",\n      'min_block_height':"
                                     +:+ str_int h +:+ String LF (py "    }\n}\n"))))
  = Some (envelope "get_bulk_payments"
            (Some (JObj [("payment_ids", JArr (map JStr ids));
                         ("min_block_height", JInt h)]))).
Proof.
  eapply (read_array_and_number _ _ _ _ _
            (fun arr h => envelope "get_bulk_payments"
               (Some (JObj [("payment_ids", JArr arr); ("min_block_height", JInt h)])))).
  - vm_compute. reflexivity.
  - intros arr. vm_compute. reflexivity.
  - intros arr h'. vm_compute. reflexivity.
Qed.

(** ** What a call puts on the wire *)

Section Bodies.

Variable py_str : pyval -> string.
Variable net : network.

Lemma sendrequest_wire (body : bytes) (st : state) :
  sends (sendrequest py_str net body) st body.
Proof.
  unfold sends, sendrequest, mbind, M_bind, set_headers, get_server, get_headers,
    requests_post, response_json, print, lift, mret, M_ret, raise.
  cbn. destruct (net _ _ body) as [|[r|]]; cbn; try reflexivity.
  destruct (check_error r body) as [[]|e]; cbn; [|reflexivity].
  destruct (check_status py_str r) as [[]|e]; reflexivity.
Qed.

(** C5: each of [getbalance], [getaddress], [getheight], [store],
    [stop_wallet] and [sweep_dust] sends one request whose body reads as an
    object of exactly three members: [jsonrpc] with 2.0, [id] with 0 and
    [method] with the name of the operation; it has no [params]. *)
Theorem parameterless_request_bodies (st : state) :
  Forall (fun '(op, name) =>
            exists body ms,
              sends (call py_str net op) st body
              /\ read_json body = Some (JObj ms)
              /\ ms = [("jsonrpc", JStr "2.0"); ("id", JStr "0"); ("method", JStr name)]
              /\ member "params" ms = None)
         parameterless.
Proof.
  unfold parameterless.
  repeat apply List.Forall_cons; try apply List.Forall_nil; cbv beta iota;
    (do 2 eexists; split; [apply sendrequest_wire|];
     split; [|split; reflexivity]; vm_compute; reflexivity).
Qed.

(** C6, amended: for a payment id made of bytes a JSON string takes as they
    are, [get_payments] sends a body whose [params] is the object with
    [payment_id] at that id; for a list of such ids, none holding the text
    HEIGHT, and an int, [get_bulk_payments] sends a body whose [params] has
    [payment_ids] at the array of the ids in their order and
    [min_block_height] at the int. *)
Theorem payments_request_bodies (st : state) (payment_id : string)
  (payment_ids : list string) (min_block_height : Z) :
  plain_text payment_id = true ->
  Forall (fun i => plain_text i = true) payment_ids ->
  Forall (fun i => occurs "HEIGHT" i = false) payment_ids ->
  (exists body,
      sends (get_payments py_str net payment_id) st body
      /\ read_json body
         = Some (envelope "get_payments"
                   (Some (JObj [("payment_id", JStr payment_id)]))))
  /\ (exists body,
         sends (get_bulk_payments py_str net payment_ids min_block_height) st body
         /\ read_json body
            = Some (envelope "get_bulk_payments"
                      (Some (JObj [("payment_ids", JArr (map JStr payment_ids));
                                   ("min_block_height", JInt min_block_height)])))).
Proof.
  intros Hid Hplain Hclean. split.
  - eexists. split; [apply sendrequest_wire|].
    etransitivity; [apply (f_equal read_json (get_payments_body payment_id))|].
    apply get_payments_reads, Hid.
  - eexists. split; [apply sendrequest_wire|].
    etransitivity;
      [apply (f_equal read_json
                (get_bulk_payments_body payment_ids min_block_height Hclean))|].
    apply get_bulk_payments_reads, Hplain.
Qed.

(** C7: [make_integrated_address] is the same call as the one code path that
    always puts the id in the place of the placeholder; the body it sends is
    the template with the id as it is between the quotes; without an id that
    body has [params] with [payment_id] at the empty text, and with the id of
    the docstring it has that id. *)
Theorem make_integrated_address_one_path (payment_id : string) :
  make_integrated_address py_str net payment_id
  = make_integrated_address_single_path py_str net payment_id
  /\ (forall st,
        sends (make_integrated_address py_str net payment_id) st
          (py "{\n  'jsonrpc':'2.0',\n  'id':'0','method':\n  'make_integrated_address',\n    'params':\n      {\n        'payment_id':'"
           +:+ payment_id +:+ py "'\n      }\n}\n"))
  /\ (forall st, exists body,
        sends (make_integrated_address py_str net EmptyString) st body
        /\ read_json body
           = Some (envelope "make_integrated_address"
                     (Some (JObj [("payment_id", JStr EmptyString)]))))
  /\ (forall st, exists body,
        sends (make_integrated_address py_str net "8c9a5fd001c3c74b") st body
        /\ read_json body
           = Some (envelope "make_integrated_address"
                     (Some (JObj [("payment_id", JStr "8c9a5fd001c3c74b")])))).
Proof.
  assert (Hbody : forall id,
    match id with
    | EmptyString =>
        py "{\n  'jsonrpc':'2.0',\n  'id':'0','method':\n  'make_integrated_address',\n    'params':\n      {\n        'payment_id':''\n      }\n}\n"
    | String _ _ =>
        replace "PAYMENTID" (encode id)
          (py "{\n  'jsonrpc':'2.0',\n  'id':'0','method':\n  'make_integrated_address',\n    'params':\n      {\n        'payment_id':'PAYMENTID'\n      }\n}\n")
    end
    = py "{\n  'jsonrpc':'2.0',\n  'id':'0','method':\n  'make_integrated_address',\n    'params':\n      {\n        'payment_id':'"
      +:+ id +:+ py "'\n      }\n}\n").
  { intros [|c id]; vm_compute; reflexivity. }
  assert (Hone : forall id,
    replace "PAYMENTID" (encode id)
      (py "{\n  'jsonrpc':'2.0',\n  'id':'0','method':\n  'make_integrated_address',\n    'params':\n      {\n        'payment_id':'PAYMENTID'\n      }\n}\n")
    = py "{\n  'jsonrpc':'2.0',\n  'id':'0','method':\n  'make_integrated_address',\n    'params':\n      {\n        'payment_id':'"
      +:+ id +:+ py "'\n      }\n}\n").
  { intros id. vm_compute. reflexivity. }
  split; [|split; [|split]].
  - unfold make_integrated_address, make_integrated_address_single_path.
    f_equal. etransitivity; [apply Hbody|]. symmetry. apply Hone.
  - intros st. unfold make_integrated_address.
    match goal with
    | |- sends (sendrequest _ _ ?b) _ _ =>
        replace b with
          (py "{\n  'jsonrpc':'2.0',\n  'id':'0','method':\n  'make_integrated_address',\n    'params':\n      {\n        'payment_id':'"
           +:+ payment_id +:+ py "'\n      }\n}\n") by (symmetry; apply Hbody)
    end.
    apply sendrequest_wire.
  - intros st. eexists. split; [apply sendrequest_wire|]. vm_compute. reflexivity.
  - intros st. eexists. split; [apply sendrequest_wire|]. vm_compute. reflexivity.
Qed.

End Bodies.

(** ** The statements above at sample inputs *)

Lemma method_not_found_witness :
  exists body,
    call no_text (simulated method_not_found_response) Getbalance
      (new_client MoneroWallet_default)
    = (Raise (MethodNotFoundError
                ("Unexpected method while requesting the server: " +:+ str_bytes body)),
       after_request no_text body method_not_found_response
         (new_client MoneroWallet_default))
    /\ forall other, str_bytes other = str_bytes body -> other = body.
Proof.
  apply (method_not_found_raised no_text Getbalance (new_client MoneroWallet_default)
           method_not_found_response method_not_found_error); reflexivity.
Defined.

Lemma status_code_error_witness :
  exists body,
    call no_text (simulated status_500_response) Getheight
      (new_client MoneroWallet_default)
    = (Raise (StatusCodeError
                ("Unexpected returned status code: " +:+ no_text status_500_response)),
       after_request no_text body status_500_response (new_client MoneroWallet_default)).
Proof.
  apply (status_code_error_raised no_text Getheight (new_client MoneroWallet_default)
           status_500_response (PInt 500));
    [reflexivity | reflexivity | reflexivity | left; reflexivity].
Defined.

Lemma unrecognised_error_witness :
  check_error busy_response EmptyString = Return tt
  /\ fst (call no_text (simulated busy_response) Getbalance
            (new_client MoneroWallet_default)) = Return PNone.
Proof.
  destruct (unrecognised_error_ignored no_text busy_response busy_error
              (PStr "Wallet is busy") eq_refl eq_refl eq_refl) as (H1 & _ & H3).
  split; [apply H1 | apply (H3 (PInt 200)); reflexivity].
Defined.

Lemma missing_status_witness :
  exists body,
    call no_text (simulated no_status_response) Getheight
      (new_client MoneroWallet_default)
    = (Raise (KeyError "status"),
       after_request no_text body no_status_response (new_client MoneroWallet_default)).
Proof.
  assert (H := missing_status_key_error no_text Getheight
                 (new_client MoneroWallet_default)
                 {[ "result" := PDict {[ "height" := PInt 1146043 ]} ]}).
  destruct H as (_ & _ & H & _);
    [reflexivity | vm_compute; reflexivity | left; vm_compute; reflexivity | exact H].
Defined.

Lemma payments_request_witness :
  (exists body,
      sends (get_payments no_text (simulated height_response) "94dd4c2613f5919d")
        (new_client MoneroWallet_default) body
      /\ read_json body
         = Some (envelope "get_payments"
                   (Some (JObj [("payment_id", JStr "94dd4c2613f5919d")]))))
  /\ (exists body,
         sends (get_bulk_payments no_text (simulated height_response) ["a"; "b"] 100)
           (new_client MoneroWallet_default) body
         /\ read_json body
            = Some (envelope "get_bulk_payments"
                      (Some (JObj [("payment_ids", JArr [JStr "a"; JStr "b"]);
                                   ("min_block_height", JInt 100)])))).
Proof.
  apply (payments_request_bodies no_text (simulated height_response)
           (new_client MoneroWallet_default) "94dd4c2613f5919d" ["a"; "b"] 100).
  - reflexivity.
  - repeat constructor.
  - repeat constructor.
Defined.

(** A response with a status of 500 and an [error] object without [message]
    ends the call with [KeyError], raised by the test on [error]: neither
    [MethodNotFoundError] nor [StatusCodeError]. *)
Lemma status_code_error_counterexample :
  py_getitem bare_error_response "status" = Return (PInt 500)
  /\ py_eq_int (PInt 500) 200 = false
  /\ (forall py_str,
        fst (call py_str (simulated bare_error_response) Getheight
               (new_client MoneroWallet_default))
        = Raise (KeyError "message")).
Proof.
  split; [reflexivity|]. split; [reflexivity|]. intros py_str.
  unfold call, getheight. rewrite sendrequest_simulated. reflexivity.
Qed.

(** An id holding double quotes changes what the body of [get_payments]
    says, and an id holding the text HEIGHT is rewritten by the second
    replacement of [get_bulk_payments]. *)
Lemma payments_request_counterexample :
  (exists body,
      sends (get_payments no_text (simulated height_response) (py "a','b':'c"))
        (new_client MoneroWallet_default) body
      /\ read_json body
         = Some (envelope "get_payments"
                   (Some (JObj [("payment_id", JStr "a"); ("b", JStr "c")])))
      /\ read_json body
         <> Some (envelope "get_payments"
                    (Some (JObj [("payment_id", JStr (py "a','b':'c"))]))))
  /\ (exists body,
         sends (get_bulk_payments no_text (simulated height_response) ["HEIGHT"] 100)
           (new_client MoneroWallet_default) body
         /\ read_json body
            = Some (envelope "get_bulk_payments"
                      (Some (JObj [("payment_ids", JArr [JStr "100"]);
                                   ("min_block_height", JInt 100)])))
         /\ read_json body
            <> Some (envelope "get_bulk_payments"
                       (Some (JObj [("payment_ids", JArr [JStr "HEIGHT"]);
                                    ("min_block_height", JInt 100)])))).
Proof.
  split; eexists; (split; [apply sendrequest_wire|]);
    (split; [vm_compute; reflexivity | vm_compute; discriminate]).
Qed.

(** A response without [status] whose [error] is [null] ends the call with
    [TypeError], raised by the test on [error] before [status] is looked up;
    a response that is an array has no [status] either, and the lookup of
    [status] fails with [TypeError], not with [KeyError]. *)
Lemma missing_status_counterexample :
  (py_in "status" null_error_response = Return false
   /\ py_getitem null_error_response "error" = Return PNone
   /\ py_getitem PNone "message" = Raise TypeError
   /\ forall py_str,
        fst (call py_str (simulated null_error_response) Getheight
               (new_client MoneroWallet_default))
        = Raise TypeError)
  /\ (py_in "status" (PList []) = Return false
      /\ py_in "error" (PList []) = Return false
      /\ forall py_str,
           check_status py_str (PList []) = Raise TypeError
           /\ fst (call py_str (simulated (PList [])) Getheight
                     (new_client MoneroWallet_default))
              = Raise TypeError).
Proof.
  split.
  - repeat (split; [reflexivity|]). intros py_str.
    unfold call, getheight. rewrite sendrequest_simulated. reflexivity.
  - do 2 (split; [reflexivity|]). intros py_str. split; [reflexivity|].
    unfold call, getheight. rewrite sendrequest_simulated. reflexivity.
Qed.

(** ** Beyond the stated properties: failures, outcomes and sequences *)

Section Transport.

Variable py_str : pyval -> string.

Lemma sendrequest_unanswered (net : network) (body : bytes) (st : state) :
  (forall r, net (format_url (server (this st))) json_headers body <> Response (Some r)) ->
  sendrequest py_str net body st
  = (Raise (match net (format_url (server (this st))) json_headers body with
            | Unreachable => RequestException
            | Response _ => ValueError
            end),
     after_attempt body st).
Proof.
  intros Hnet.
  unfold sendrequest, mbind, M_bind, set_headers, get_server, get_headers,
    requests_post, response_json, print, lift, mret, M_ret, raise.
  cbn. destruct (net _ _ body) as [|[r|]] eqn:E; cbn; try reflexivity.
  destruct (Hnet r eq_refl).
Qed.

(** X1: when the transport fails, a call raises what [requests.post] raised;
    the request has been handed over and [self.headers] set, nothing is
    printed. *)
Theorem transport_failure_propagates (op : operation) (st : state) :
  implemented op = true ->
  exists body,
    call py_str unreachable op st = (Raise RequestException, after_attempt body st).
Proof.
  intros Hop. destruct (call_implemented py_str unreachable op Hop) as [body ->].
  exists body. rewrite sendrequest_unanswered; [reflexivity|discriminate].
Qed.

(** X2: when the answer is not JSON, a call raises the [ValueError] of
    [req.json()], from the [print] line, so nothing is printed. *)
Theorem invalid_json_propagates (op : operation) (st : state) :
  implemented op = true ->
  exists body,
    call py_str not_json op st = (Raise ValueError, after_attempt body st).
Proof.
  intros Hop. destruct (call_implemented py_str not_json op Hop) as [body ->].
  exists body. rewrite sendrequest_unanswered; [reflexivity|discriminate].
Qed.

Lemma checks_outcome (r : pyval) (body : bytes) :
  let o : outcome pyval := check_error r body;; check_status py_str r;; Return PNone in
  o = Return PNone
  \/ o = Raise (MethodNotFoundError
                  ("Unexpected method while requesting the server: " +:+ str_bytes body))
  \/ o = Raise (StatusCodeError ("Unexpected returned status code: " +:+ py_str r))
  \/ o = Raise (KeyError "message")
  \/ o = Raise (KeyError "status")
  \/ o = Raise TypeError.
Proof.
  cbv zeta. unfold check_error, check_status.
  destruct r; cbn; auto 10.
  - destruct (occurs "error" s); cbn; auto 10.
  - destruct (existsb _ items); cbn; auto 10.
  - destruct (d !! "error") as [e|] eqn:He.
    + rewrite bool_decide_true by eauto. cbn.
      destruct e; cbn; auto 10.
      destruct (d0 !! "message") as [m|]; cbn; auto 10.
      destruct (py_eq_str m "Method not found"); cbn; auto 10.
      destruct (d !! "status") as [s|]; cbn; auto 10.
      destruct (py_eq_int s 200); cbn; auto 10.
    + rewrite bool_decide_false by (intros [x Hx]; discriminate Hx). cbn.
      destruct (d !! "status") as [s|]; cbn; auto 10.
      destruct (py_eq_int s 200); cbn; auto 10.
Qed.

(** X3: no call ever returns anything but [None], whatever the operation,
    the server and the state. *)
Theorem call_returns_only_None (net : network) (op : operation) (st : state) :
  fst (call py_str net op st) = Return PNone
  \/ exists e, fst (call py_str net op st) = Raise e.
Proof.
  destruct (implemented op) eqn:Hop.
  - destruct (call_implemented py_str net op Hop) as [body ->].
    destruct (net (format_url (server (this st))) json_headers body) as [|[r|]] eqn:E.
    + right. eexists. rewrite sendrequest_unanswered; [reflexivity|congruence].
    + rewrite (sendrequest_answered py_str net body st r E). cbn [fst].
      destruct (checks_outcome r body) as [H|[H|[H|[H|[H|H]]]]]; cbv zeta in H;
        rewrite H; eauto.
    + right. eexists. rewrite sendrequest_unanswered; [reflexivity|congruence].
  - left. destruct op; try discriminate Hop; reflexivity.
Qed.

(** X11: on an answered request the parsed response is printed once and the
    call then ends in one of six ways. *)
Theorem dispatch_outcomes (op : operation) (st : state) (r : pyval) :
  implemented op = true ->
  exists body o,
    call py_str (simulated r) op st = (o, after_request py_str body r st)
    /\ (o = Return PNone
        \/ o = Raise (MethodNotFoundError
                        ("Unexpected method while requesting the server: "
                         +:+ str_bytes body))
        \/ o = Raise (StatusCodeError ("Unexpected returned status code: " +:+ py_str r))
        \/ o = Raise (KeyError "message")
        \/ o = Raise (KeyError "status")
        \/ o = Raise TypeError).
Proof.
  intros Hop. destruct (call_implemented py_str (simulated r) op Hop) as [body ->].
  exists body. eexists. split; [apply sendrequest_simulated|].
  apply checks_outcome.
Qed.

(** X10: a parsed response that is not an object (an array, a text, a number,
    a boolean, null) ends every call with [TypeError]. *)
Theorem non_object_response (op : operation) (st : state) (r : pyval) :
  implemented op = true ->
  (forall d, r <> PDict d) ->
  exists body,
    call py_str (simulated r) op st = (Raise TypeError, after_request py_str body r st).
Proof.
  intros Hop Hr. destruct (call_implemented py_str (simulated r) op Hop) as [body ->].
  exists body. rewrite sendrequest_simulated. f_equal.
  unfold check_error, check_status. destruct r; cbn; try reflexivity.
  - destruct (occurs "error" s); reflexivity.
  - destruct (existsb _ items); reflexivity.
  - destruct (Hr d eq_refl).
Qed.

(** X12: an [error] entry of another shape fails the call before [status] is
    read: an object without [message] gives [KeyError], anything that is not
    an object (null, a text, a number, an array) gives [TypeError]. *)
Theorem malformed_error_entry (op : operation) (st : state) (r e : pyval) :
  implemented op = true ->
  py_getitem r "error" = Return e ->
  (forall m, py_getitem e "message" <> Return m) ->
  exists body,
    call py_str (simulated r) op st
    = (Raise (match e with
              | PDict _ => KeyError "message"
              | _ => TypeError
              end),
       after_request py_str body r st).
Proof.
  intros Hop He Hm. destruct (call_implemented py_str (simulated r) op Hop) as [body ->].
  exists body. rewrite sendrequest_simulated. f_equal.
  unfold check_error. destruct r; try discriminate He. cbn in He |- *.
  destruct (d !! "error") as [x|] eqn:Hd; [|discriminate He].
  injection He as ->. rewrite bool_decide_true by eauto. cbn.
  destruct e; cbn; try reflexivity.
  destruct (d0 !! "message") as [m|] eqn:Em; [|reflexivity].
  destruct (Hm m). cbn. rewrite Em. reflexivity.
Qed.

(** X13: with no [error] entry, the call returns exactly when [status] is the
    int 200 among ints, and a [status] that is a text, a boolean, null, an
    array or an object is refused with [StatusCodeError] whatever it holds. *)
Theorem status_comparison (op : operation) (st : state) (r status : pyval) :
  implemented op = true ->
  py_in "error" r = Return false ->
  py_getitem r "status" = Return status ->
  (forall f, status <> PFloat f) ->
  exists body,
    call py_str (simulated r) op st
    = (match status with
       | PInt 200 => Return PNone
       | _ => Raise (StatusCodeError ("Unexpected returned status code: " +:+ py_str r))
       end,
       after_request py_str body r st).
Proof.
  intros Hop Herr Hst Hf.
  destruct (call_implemented py_str (simulated r) op Hop) as [body ->].
  exists body. rewrite sendrequest_simulated. f_equal.
  unfold check_error, check_status. rewrite Herr, Hst. cbn.
  destruct status as [| [] | n | f | s | l | d]; cbn; try reflexivity.
  - destruct (Z.eqb_spec n 200) as [->|Hn]; [reflexivity|].
    destruct n as [|p|p]; try reflexivity.
    repeat (destruct p as [p|p|]; try reflexivity). destruct (Hn eq_refl).
  - destruct (Hf f eq_refl).
Qed.

End Transport.

Section Sequences.

Variable py_str : pyval -> string.
Variable net : network.

Lemma sendrequest_headers (body : bytes) (st : state) :
  headers (this (snd (sendrequest py_str net body st))) = Some json_headers.
Proof.
  unfold sendrequest, mbind, M_bind, set_headers, get_server, get_headers,
    requests_post, response_json, print, lift, mret, M_ret, raise.
  cbn. destruct (net _ _ body) as [|[r|]]; cbn; try reflexivity.
  destruct (check_error r body) as [[]|e]; cbn; [|reflexivity].
  destruct (check_status py_str r) as [[]|e]; reflexivity.
Qed.

Lemma call_wire (op : operation) (st : state) :
  exists body,
    wire (snd (call py_str net op st))
    = (wire st ++ if implemented op then [request_for st body] else [])%list.
Proof.
  destruct (implemented op) eqn:Hop.
  - destruct (call_implemented py_str net op Hop) as [body ->].
    exists body. apply sendrequest_wire.
  - exists EmptyString. destruct op; try discriminate Hop; cbn; rewrite app_nil_r;
      reflexivity.
Qed.

Lemma run_all_wire (ops : list operation) (st : state) :
  exists sent,
    wire (run_all py_str net ops st) = (wire st ++ sent)%list
    /\ length sent = length (List.filter implemented ops)
    /\ Forall (fun rq => req_url rq = format_url (server (this st))
                         /\ req_headers rq = json_headers) sent.
Proof.
  revert st. induction ops as [|op ops IH]; intros st.
  - exists []. cbn. rewrite app_nil_r. auto.
  - cbn [run_all]. destruct (IH (snd (call py_str net op st))) as (sent & Hw & Hl & Hf).
    destruct (call_wire op st) as [body Hc].
    rewrite (call_server py_str net op st) in Hf.
    exists ((if implemented op then [request_for st body] else []) ++ sent)%list.
    rewrite Hw, Hc, <- app_assoc. split; [reflexivity|].
    cbn [List.filter]. destruct (implemented op); cbn; [|auto].
    split; [congruence|]. constructor; [split; reflexivity|exact Hf].
Qed.

(** X4: over any sequence of calls on a client just built, one request goes
    out for each call of a method that is implemented, none for the others,
    and each goes, with the JSON content type as its only header, to the URL
    made of the values given to the constructor. *)
Theorem requests_of_a_client (protocol host : string) (port : Z) (path : string)
  (ops : list operation) :
  let st := run_all py_str net ops
              (new_client (MoneroWallet_init protocol host port path)) in
  length (wire st) = length (List.filter implemented ops)
  /\ Forall (fun rq =>
               req_url rq = protocol +:+ "://" +:+ host +:+ ":" +:+ str_int port +:+ path
               /\ req_headers rq = json_headers)
            (wire st).
Proof.
  cbv zeta.
  destruct (run_all_wire ops (new_client (MoneroWallet_init protocol host port path)))
    as (sent & Hw & Hl & Hf).
  rewrite Hw. cbn [new_client wire app]. split; [exact Hl|exact Hf].
Qed.

(** X5: [self.headers] does not exist until a request is sent; from the first
    call of an implemented method on, whatever its outcome, it is the JSON
    content type, and the three empty methods never set it. *)
Theorem headers_attribute (ops : list operation) (st : state) :
  headers (this (run_all py_str net ops st))
  = if existsb implemented ops then Some json_headers else headers (this st).
Proof.
  revert st. induction ops as [|op ops IH]; intros st; [reflexivity|].
  cbn [run_all existsb]. rewrite IH.
  destruct (implemented op) eqn:Hop; cbn [orb].
  - destruct (call_implemented py_str net op Hop) as [body ->].
    rewrite sendrequest_headers. destruct (existsb implemented ops); reflexivity.
  - destruct op; try discriminate Hop; reflexivity.
Qed.

Lemma sendrequest_outcome_server (body : bytes) (st st' : state) :
  server (this st) = server (this st') ->
  fst (sendrequest py_str net body st) = fst (sendrequest py_str net body st').
Proof.
  intros Hs.
  unfold sendrequest, mbind, M_bind, set_headers, get_server, get_headers,
    requests_post, response_json, print, lift, mret, M_ret, raise.
  cbn. rewrite Hs. destruct (net _ _ body) as [|[r|]]; cbn; try reflexivity.
  destruct (check_error r body) as [[]|e]; cbn; [|reflexivity].
  destruct (check_status py_str r) as [[]|e]; reflexivity.
Qed.

(** X6: what a call returns or raises does not depend on the calls made
    before it on the same object: after any sequence of calls it is what it
    would have been at the start. *)
Theorem outcome_ignores_history (ops : list operation) (op : operation) (st : state) :
  fst (call py_str net op (run_all py_str net ops st)) = fst (call py_str net op st).
Proof.
  assert (Hs : forall ops st, server (this (run_all py_str net ops st)) = server (this st)).
  { clear. induction ops as [|o ops IH]; intros st; cbn; [reflexivity|].
    rewrite IH. apply call_server. }
  destruct (implemented op) eqn:Hop.
  - destruct (call_implemented py_str net op Hop) as [body ->].
    apply sendrequest_outcome_server, Hs.
  - destruct op; try discriminate Hop; reflexivity.
Qed.

End Sequences.

(** ** More on the bodies *)

Section StringHole.

Variables (pre post : bytes) (after_quote : parser) (result : string -> json).

Hypothesis pre_read :
  run (LIdle, ([], PValue)) pre = Some (LStr EmptyString, after_quote).
Hypothesis post_read : forall s,
  (st ← run (LStr s, after_quote) post; finish st) = Some (result s).

Lemma read_string_hole (s : string) :
  plain_text s = true -> read_json (pre +:+ s +:+ post) = Some (result s).
Proof.
  intros Hs. unfold read_json.
  rewrite run_app, pre_read. cbn [mbind option_bind].
  rewrite run_app, (run_plain s _ _ Hs). cbn [mbind option_bind].
  apply post_read.
Qed.

End StringHole.

Lemma prefix_length (a b : string) :
  String.prefix a b = true -> (String.length a <= String.length b)%nat.
Proof.
  revert b. induction a as [|x a IH]; intros b H; cbn; [lia|].
  destruct b as [|y b]; [discriminate H|]. cbn in H |- *.
  destruct (ascii_dec x y); [|discriminate H]. apply IH in H. lia.
Qed.

Lemma replace_from_split (o : ascii) (old new rest : string) (c : ascii) :
  contains_byte c (String o old) = false ->
  forall s k, (k <= String.length s)%nat ->
  replace_from (String o old) new k (s +:+ String c rest)
  = replace_from (String o old) new k s
    +:+ String c (replace_from (String o old) new 0 rest).
Proof.
  intros Hc. induction s as [|x s IH]; intros k Hk.
  - cbn in Hk. assert (k = 0%nat) as -> by lia.
    apply (replace_from_before o old new EmptyString rest c Hc eq_refl).
  - change (String x s +:+ String c rest) with (String x (s +:+ String c rest)).
    destruct k as [|k]; cbn [replace_from].
    + change (String x (s +:+ String c rest)) with (String x s +:+ String c rest) at 1.
      rewrite (prefix_before _ (String x s) rest c Hc).
      destruct (String.prefix (String o old) (String x s)) eqn:Hp.
      * apply prefix_length in Hp. cbn in Hp.
        rewrite IH by (cbn; lia). rewrite append_assoc. reflexivity.
      * rewrite IH by lia. reflexivity.
    + apply IH. cbn in Hk. lia.
Qed.

Lemma replace_from_quoted_all (o : ascii) (old new : string) (ids : list string)
  (rest : string) (c : ascii) :
  contains_byte dquote (String o old) = false ->
  contains_byte "," (String o old) = false ->
  contains_byte c (String o old) = false ->
  replace_from (String o old) new 0 (join "," (map quoted ids) +:+ String c rest)
  = join "," (map quoted (map (replace (String o old) new) ids))
    +:+ String c (replace_from (String o old) new 0 rest).
Proof.
  intros Hq Hcomma Hc.
  assert (Hone : forall i rest',
            replace_from (String o old) new 0 (quoted i +:+ rest')
            = quoted (replace (String o old) new i)
              +:+ replace_from (String o old) new 0 rest').
  { intros i rest'. unfold quoted.
    change (String dquote (i +:+ String dquote EmptyString) +:+ rest')
      with (EmptyString +:+ String dquote ((i +:+ String dquote EmptyString) +:+ rest')).
    rewrite (replace_from_split o old new _ dquote Hq EmptyString 0%nat (le_n 0)).
    rewrite append_assoc.
    change (String dquote EmptyString +:+ rest') with (String dquote rest').
    rewrite (replace_from_split o old new _ dquote Hq i 0%nat (Nat.le_0_l _)).
    cbn. rewrite append_assoc. reflexivity. }
  induction ids as [|i ids IH].
  - cbn. apply (replace_from_split o old new _ c Hc EmptyString 0%nat (le_n 0)).
  - destruct ids as [|j ids].
    + change (join "," (map quoted [i])) with (quoted i).
      rewrite Hone. f_equal.
      apply (replace_from_split o old new _ c Hc EmptyString 0%nat (le_n 0)).
    + change (join "," (map quoted (i :: j :: ids)))
        with (quoted i +:+ "," +:+ join "," (map quoted (j :: ids))).
      rewrite !append_assoc. rewrite Hone.
      change ("," +:+ join "," (map quoted (j :: ids)) +:+ String c rest)
        with (EmptyString
              +:+ String ","%char (join "," (map quoted (j :: ids)) +:+ String c rest)).
      rewrite (replace_from_split o old new _ ","%char Hcomma EmptyString 0%nat (le_n 0)).
      rewrite IH.
      change (map (replace (String o old) new) (i :: j :: ids))
        with (replace (String o old) new i :: map (replace (String o old) new) (j :: ids)).
      change (map (replace (String o old) new) (j :: ids))
        with (replace (String o old) new j :: map (replace (String o old) new) ids).
      cbn [map join]. rewrite !append_assoc. reflexivity.
Qed.

Lemma plain_text_app (a b : string) :
  plain_text (a +:+ b) = plain_text a && plain_text b.
Proof.
  induction a as [|x a IH]; cbn; [reflexivity|]. rewrite IH, andb_assoc. reflexivity.
Qed.

Lemma plain_replace_from (old new s : string) (k : nat) :
  plain_text new = true -> plain_text s = true ->
  plain_text (replace_from old new k s) = true.
Proof.
  intros Hnew. revert k. induction s as [|x s IH]; intros k Hs; [reflexivity|].
  cbn in Hs. apply andb_true_iff in Hs as [Hx Hs]. cbn [replace_from].
  destruct k as [|k]; [|apply IH, Hs].
  destruct (String.prefix old (String x s)).
  - rewrite plain_text_app, Hnew, (IH _ Hs). reflexivity.
  - cbn. rewrite Hx, (IH _ Hs). reflexivity.
Qed.

Lemma num_char_plain (c : ascii) : is_num_char c = true -> plain_char c = true.
Proof. destruct c as [[] [] [] [] [] [] [] []]; intros H; try reflexivity; discriminate H. Qed.

Lemma num_text_plain (s : string) : num_text s = true -> plain_text s = true.
Proof.
  induction s as [|x s IH]; cbn; [reflexivity|]. intros H.
  apply andb_true_iff in H as [Hx Hs]. rewrite (num_char_plain x Hx), (IH Hs). reflexivity.
Qed.

Lemma plain_replace (old new s : string) :
  plain_text new = true -> plain_text s = true ->
  plain_text (replace old new s) = true.
Proof.
  intros Hnew Hs. destruct old as [|o old]; cbn [replace].
  - induction s as [|x s IH]; cbn; [exact Hnew|].
    cbn in Hs. apply andb_true_iff in Hs as [Hx Hs].
    rewrite plain_text_app, Hnew. cbn. rewrite Hx. apply IH, Hs.
  - apply plain_replace_from; assumption.
Qed.

Section ArrayWithHeight.

Variables (template pre close close' post : bytes).

Hypothesis first_replaced : forall P,
  replace_from "PAYMENTIDS" P 0 template
  = pre +:+ String "[" (P +:+ String "]" close').
Hypothesis pre_clean : occurs "HEIGHT" pre = false.
Hypothesis close_replaced : forall hs,
  replace_from "HEIGHT" hs 0 close' = close +:+ hs +:+ String LF post.

Lemma replaced_array_with_height (ids : list string) (h : Z) :
  replace "HEIGHT" (encode (str_int h))
    (replace "PAYMENTIDS" (encode (join "," (map quoted ids))) template)
  = pre +:+ String "[" (join "," (map quoted (map (replace "HEIGHT" (str_int h)) ids))
                        +:+ String "]" (close +:+ str_int h +:+ String LF post)).
Proof.
  unfold encode. unfold replace at 1 2.
  rewrite first_replaced.
  rewrite replace_from_before by (solve [reflexivity | exact pre_clean]).
  rewrite replace_from_quoted_all by reflexivity.
  rewrite close_replaced. reflexivity.
Qed.

End ArrayWithHeight.

Section MoreBodies.

Variable py_str : pyval -> string.
Variable net : network.

Lemma sends_body (b body : bytes) (st : state) :
  b = body -> sends (sendrequest py_str net b) st body.
Proof. intros ->. apply sendrequest_wire. Qed.

(** X9: [get_payments], [incoming_transfers] and [query_key] put their
    argument into the body as it is, whatever bytes it holds, the text of the
    placeholder included: nothing is escaped and nothing is refused. *)
Theorem arguments_inserted_verbatim (st : state) (payment_id transfer_type key_type : string) :
  sends (get_payments py_str net payment_id) st
    (py "{\n  'jsonrpc':'2.0',\n  'id':'0',\n  'method':'get_payments',\n  'params':\n    {\n        'payment_id':'"
     +:+ payment_id +:+ py "'\n    }\n}\n")
  /\ sends (incoming_transfers py_str net transfer_type) st
       (py "{\n  'jsonrpc':'2.0',\n  'id':'0',\n  'method':'incoming_transfers',\n  'params':\n    {\n      'transfer_type':'"
        +:+ transfer_type +:+ py "'\n    }\n}\n")
  /\ sends (query_key py_str net key_type) st
       (py "{\n  'jsonrpc':'2.0',\n  'id':'0',\n  'method':'query_key',\n  'params':\n    {\n      'key_type':'"
        +:+ key_type +:+ py "'\n    }\n}\n").
Proof.
  split; [|split]; apply sends_body; vm_compute; reflexivity.
Qed.

(** X7: for an argument made of bytes a JSON string takes as they are,
    [incoming_transfers], [query_key] and [make_integrated_address] send a
    body that reads as the envelope of their method with the one parameter
    [transfer_type], [key_type] or [payment_id] at the argument; the defaults
    all, mnemonic and the empty text are such arguments. *)
Theorem single_parameter_bodies (st : state) (transfer_type key_type payment_id : string) :
  plain_text transfer_type = true ->
  plain_text key_type = true ->
  plain_text payment_id = true ->
  (exists body,
      sends (incoming_transfers py_str net transfer_type) st body
      /\ read_json body
         = Some (envelope "incoming_transfers"
                   (Some (JObj [("transfer_type", JStr transfer_type)]))))
  /\ (exists body,
         sends (query_key py_str net key_type) st body
         /\ read_json body
            = Some (envelope "query_key" (Some (JObj [("key_type", JStr key_type)]))))
  /\ (exists body,
         sends (make_integrated_address py_str net payment_id) st body
         /\ read_json body
            = Some (envelope "make_integrated_address"
                      (Some (JObj [("payment_id", JStr payment_id)])))).
Proof.
  intros Ht Hk Hp. split; [|split].
  - exists (py "{\n  'jsonrpc':'2.0',\n  'id':'0',\n  'method':'incoming_transfers',\n  'params':\n    {\n      'transfer_type':'"
            +:+ transfer_type +:+ py "'\n    }\n}\n").
    split; [apply sends_body; vm_compute; reflexivity|].
    eapply (read_string_hole _ _ _
             (fun s => envelope "incoming_transfers"
                         (Some (JObj [("transfer_type", JStr s)]))));
      [vm_compute; reflexivity | intros s; vm_compute; reflexivity | exact Ht].
  - exists (py "{\n  'jsonrpc':'2.0',\n  'id':'0',\n  'method':'query_key',\n  'params':\n    {\n      'key_type':'"
            +:+ key_type +:+ py "'\n    }\n}\n").
    split; [apply sends_body; vm_compute; reflexivity|].
    eapply (read_string_hole _ _ _
             (fun s => envelope "query_key" (Some (JObj [("key_type", JStr s)]))));
      [vm_compute; reflexivity | intros s; vm_compute; reflexivity | exact Hk].
  - exists (py "{\n  'jsonrpc':'2.0',\n  'id':'0','method':\n  'make_integrated_address',\n    'params':\n      {\n        'payment_id':'"
            +:+ payment_id +:+ py "'\n      }\n}\n").
    split; [apply sends_body; destruct payment_id; vm_compute; reflexivity|].
    eapply (read_string_hole _ _ _
             (fun s => envelope "make_integrated_address"
                         (Some (JObj [("payment_id", JStr s)]))));
      [vm_compute; reflexivity | intros s; vm_compute; reflexivity | exact Hp].
Qed.

(** X8: for ids made of bytes a JSON string takes as they are,
    [get_bulk_payments] sends a body whose [payment_ids] are the ids in
    their order with every occurrence of the text HEIGHT replaced by the
    digits of [min_block_height], and whose [min_block_height] is the int;
    an empty list gives an empty array. *)
Theorem bulk_payment_ids_sent (st : state) (payment_ids : list string)
  (min_block_height : Z) :
  Forall (fun i => plain_text i = true) payment_ids ->
  exists body,
    sends (get_bulk_payments py_str net payment_ids min_block_height) st body
    /\ read_json body
       = Some (envelope "get_bulk_payments"
                 (Some (JObj [("payment_ids",
                               JArr (map (fun i => JStr (replace "HEIGHT"
                                                           (str_int min_block_height) i))
                                         payment_ids));
                              ("min_block_height", JInt min_block_height)]))).
Proof.
  intros Hplain.
  exists (py "{\n  'jsonrpc':'2.0',\n  'id':'0',\n  'method':'get_bulk_payments',\n  'params':\n    {\n      'payment_ids':"
          +:+ String "[" (join "," (map quoted (map (replace "HEIGHT"
                                                      (str_int min_block_height))
                                                   payment_ids))
                          +:+ String "]" (py ",\n      'min_block_height':"
                                          +:+ str_int min_block_height
                                          +:+ String LF (py "    }\n}\n")))).
  split.
  - apply sends_body.
    apply (replaced_array_with_height _ _ _
             (py ",\n      'min_block_height':HEIGHT\n    }\n}\n")).
    + intros P. vm_compute. reflexivity.
    + vm_compute. reflexivity.
    + intros hs. vm_compute. reflexivity.
  - rewrite <- (map_map (replace "HEIGHT" (str_int min_block_height)) JStr).
    apply get_bulk_payments_reads.
    apply Forall_map. eapply Forall_impl; [exact Hplain|].
    intros i Hi. apply (plain_replace "HEIGHT" _ i); [|exact Hi].
    apply num_text_plain, num_text_str_int.
Qed.

End MoreBodies.

(** ** A double quote in an argument

    Once the reader has closed the first member of [params], that member
    stays what it is in every reading that follows. *)

Section Marked.

Variables (outer : list (string * json)) (pkey : string) (m0 : string * json).

Lemma marked_phase (stack : list frame) (ph ph' : phase) :
  stack <> [] -> marked outer pkey m0 (stack, ph) -> marked outer pkey m0 (stack, ph').
Proof.
  intros Hne [H | [H | [H _]]]; [left; exact H | right; left; exact H |].
  cbn in H. contradiction.
Qed.

Lemma marked_push (f : frame) (stack : list frame) (ph ph' : phase) :
  stack <> [] -> marked outer pkey m0 (stack, ph) -> marked outer pkey m0 (f :: stack, ph').
Proof.
  intros Hne [(stk & g & H & Hg) | [(stk & g & H & Hg) | [H _]]]; cbn in H.
  - left. exists (f :: stk), g. cbn. rewrite H. auto.
  - right. left. exists (f :: stk), g. cbn. rewrite H. auto.
  - contradiction.
Qed.

Lemma deliver_marked (stack : list frame) (ph : phase) (v : json) (p' : parser) :
  stack <> [] -> marked outer pkey m0 (stack, ph) -> deliver stack v = Some p' -> marked outer pkey m0 p'.
Proof.
  intros Hne [(stk & g & H & Hg) | [(stk & g & H & Hg) | [H _]]] Hd; cbn in H;
    [| |contradiction]; subst stack.
  - destruct stk as [|t stk]; cbn in Hd.
    + destruct g as [items|ms|ms k]; cbn in Hg; try contradiction; try discriminate Hd.
      injection Hd as <-. destruct Hg as [ms' ->].
      left. exists [], (FObj (((k, v) :: ms') ++ [m0])).
      split; [reflexivity|exists ((k, v) :: ms'); reflexivity].
    + destruct t as [items|ms|ms k]; try discriminate Hd; injection Hd as <-.
      * left. exists (FArr (v :: items) :: stk), g. auto.
      * left. exists (FObj ((k, v) :: ms) :: stk), g. auto.
  - destruct stk as [|t stk]; cbn in Hd.
    + destruct g as [items|ms|ms k]; cbn in Hg; try contradiction; try discriminate Hd.
      injection Hd as <-. destruct Hg as (ms' & tl & ->).
      right. left.
      exists [], (FObj (((k, v) :: ms') ++ (pkey, JObj (m0 :: tl)) :: outer)).
      split; [reflexivity|exists ((k, v) :: ms'), tl; reflexivity].
    + destruct t as [items|ms|ms k]; try discriminate Hd; injection Hd as <-.
      * right. left. exists (FArr (v :: items) :: stk), g. auto.
      * right. left. exists (FObj ((k, v) :: ms) :: stk), g. auto.
Qed.

(** Taking the innermost container off: what is left is marked, or the
    container was the marked one. *)
Lemma pop_marked (t : frame) (stack : list frame) (ph : phase) (v : json) (p' : parser) :
  marked outer pkey m0 (t :: stack, ph) ->
  (forall ms, t = FObj ms -> v = JObj (rev ms)) ->
  (forall items, t = FArr items -> v = JArr (rev items)) ->
  (forall ms k, t <> FKey ms k) ->
  deliver stack v = Some p' -> marked outer pkey m0 p'.
Proof.
  intros [(stk & g & H & Hg) | [(stk & g & H & Hg) | [H _]]] Hobj Harr Hkey Hd;
    cbn in H; [| |discriminate H].
  - destruct stk as [|t' stk]; cbn in H; injection H as -> ->.
    + destruct g as [items|ms|ms k]; cbn in Hg; try contradiction.
      * destruct Hg as [ms' ->]. rewrite (Hobj _ eq_refl) in Hd. cbn in Hd.
        injection Hd as <-. right. left.
        exists [], (FObj ([] ++ (pkey, JObj (m0 :: rev ms')) :: outer)).
        rewrite rev_app_distr.
        split; [reflexivity|exists [], (rev ms'); reflexivity].
      * destruct (Hkey ms k eq_refl).
    + apply (deliver_marked (stk ++ [g; FKey outer pkey]) ph v p').
      * destruct stk; discriminate.
      * left. exists stk, g. auto.
      * exact Hd.
  - destruct stk as [|t' stk]; cbn in H; injection H as -> ->.
    + destruct g as [items|ms|ms k]; cbn in Hg; try contradiction.
      * destruct Hg as (ms' & tl & ->). rewrite (Hobj _ eq_refl) in Hd. cbn in Hd.
        injection Hd as <-. right. right. split; [reflexivity|].
        exists (rev ms'), tl. cbn. rewrite rev_app_distr. cbn.
        rewrite <- app_assoc. reflexivity.
      * destruct (Hkey ms k eq_refl).
    + apply (deliver_marked (stk ++ [g]) ph v p').
      * destruct stk; discriminate.
      * right. left. exists stk, g. auto.
      * exact Hd.
Qed.

Lemma marked_nonempty_or_done (stack : list frame) (ph : phase) :
  marked outer pkey m0 (stack, ph) -> stack <> [] \/ exists v, ph = PDone v.
Proof.
  intros [(stk & g & H & _) | [(stk & g & H & _) | [_ (more & tl & H)]]]; cbn in *.
  - left. subst. destruct stk; discriminate.
  - left. subst. destruct stk; discriminate.
  - right. eauto.
Qed.

Lemma take_string_marked (p p' : parser) (s : string) :
  marked outer pkey m0 p -> take_string p s = Some p' -> marked outer pkey m0 p'.
Proof.
  destruct p as [stack ph]. intros Hm Ht.
  destruct (marked_nonempty_or_done _ _ Hm) as [Hne | [v ->]]; [|discriminate Ht].
  cbn in Ht. destruct ph; try discriminate Ht;
    try (apply (deliver_marked stack _ _ _ Hne Hm Ht)).
  - destruct stack as [|[items|ms|ms k] stack]; try discriminate Ht. injection Ht as <-.
    destruct Hm as [(stk & g & H & Hg) | [(stk & g & H & Hg) | [H _]]]; cbn in H;
      [| |discriminate H].
    + destruct stk as [|t' stk]; cbn in H; injection H as <- ->.
      * left. exists [], (FKey ms s). split; [reflexivity|exact Hg].
      * left. exists (FKey ms s :: stk), g. split; [reflexivity|exact Hg].
    + destruct stk as [|t' stk]; cbn in H; injection H as <- ->.
      * right. left. exists [], (FKey ms s). split; [reflexivity|exact Hg].
      * right. left. exists (FKey ms s :: stk), g. split; [reflexivity|exact Hg].
  - destruct stack as [|[items|ms|ms k] stack]; try discriminate Ht. injection Ht as <-.
    destruct Hm as [(stk & g & H & Hg) | [(stk & g & H & Hg) | [H _]]]; cbn in H;
      [| |discriminate H].
    + destruct stk as [|t' stk]; cbn in H; injection H as <- ->.
      * left. exists [], (FKey ms s). split; [reflexivity|exact Hg].
      * left. exists (FKey ms s :: stk), g. split; [reflexivity|exact Hg].
    + destruct stk as [|t' stk]; cbn in H; injection H as <- ->.
      * right. left. exists [], (FKey ms s). split; [reflexivity|exact Hg].
      * right. left. exists (FKey ms s :: stk), g. split; [reflexivity|exact Hg].
Qed.

Lemma take_scalar_marked (p p' : parser) (v : json) :
  marked outer pkey m0 p -> take_scalar p v = Some p' -> marked outer pkey m0 p'.
Proof.
  destruct p as [stack ph]. intros Hm Ht.
  destruct (marked_nonempty_or_done _ _ Hm) as [Hne | [w ->]]; [|discriminate Ht].
  cbn in Ht. destruct (expects_value ph); [|discriminate Ht].
  apply (deliver_marked stack _ _ _ Hne Hm Ht).
Qed.

Lemma take_punct_marked (p p' : parser) (c : ascii) :
  marked outer pkey m0 p -> take_punct p c = Some p' -> marked outer pkey m0 p'.
Proof.
  destruct p as [stack ph]. intros Hm Ht.
  destruct (marked_nonempty_or_done _ _ Hm) as [Hne | [w ->]].
  2:{ cbn in Ht. repeat (destruct (Ascii.eqb c _); [discriminate Ht|]). discriminate Ht. }
  unfold take_punct in Ht.
  destruct (Ascii.eqb c "{").
  { destruct (expects_value ph); [|discriminate Ht]. injection Ht as <-.
    apply marked_push with (ph := ph); assumption. }
  destruct (Ascii.eqb c "[").
  { destruct (expects_value ph); [|discriminate Ht]. injection Ht as <-.
    apply marked_push with (ph := ph); assumption. }
  destruct (Ascii.eqb c "}").
  { destruct stack as [|[items|ms|ms k] stack]; destruct ph; try discriminate Ht;
      (eapply pop_marked; [exact Hm | | | | exact Ht]; congruence). }
  destruct (Ascii.eqb c "]").
  { destruct stack as [|[items|ms|ms k] stack]; destruct ph; try discriminate Ht;
      (eapply pop_marked; [exact Hm | | | | exact Ht]; congruence). }
  destruct (Ascii.eqb c ":").
  { destruct ph; try discriminate Ht.
    destruct stack as [|[items|ms|ms k] stack]; try discriminate Ht. injection Ht as <-.
    apply marked_phase with (ph := PColon); assumption. }
  destruct (Ascii.eqb c ",").
  { destruct ph; try discriminate Ht.
    destruct stack as [|[items|ms|ms k] stack]; try discriminate Ht; injection Ht as <-;
      apply marked_phase with (ph := PNext); assumption. }
  discriminate Ht.
Qed.

Lemma feed_idle_marked (p : parser) (c : ascii) (st' : lexer * parser) :
  marked outer pkey m0 p -> feed_idle p c = Some st' -> marked outer pkey m0 (snd st').
Proof.
  intros Hm Hf. unfold feed_idle in Hf.
  destruct (is_ws c); [injection Hf as <-; exact Hm|].
  destruct (Ascii.eqb c dquote); [injection Hf as <-; exact Hm|].
  destruct (is_num_char c); [injection Hf as <-; exact Hm|].
  destruct (is_letter c); [injection Hf as <-; exact Hm|].
  destruct (take_punct p c) as [p'|] eqn:E; [|discriminate Hf].
  injection Hf as <-. apply (take_punct_marked p p' c Hm E).
Qed.

Lemma feed_marked (st st' : lexer * parser) (c : ascii) :
  marked outer pkey m0 (snd st) -> feed st c = Some st' -> marked outer pkey m0 (snd st').
Proof.
  destruct st as [lx p]. cbn [snd]. intros Hm Hf. unfold feed in Hf.
  destruct lx as [|acc|acc|acc].
  - apply (feed_idle_marked p c st' Hm Hf).
  - destruct (Ascii.eqb c dquote).
    + destruct (take_string p acc) as [p'|] eqn:E; [|discriminate Hf].
      injection Hf as <-. apply (take_string_marked p p' acc Hm E).
    + destruct (plain_char c); [injection Hf as <-; exact Hm|discriminate Hf].
  - destruct (is_num_char c); [injection Hf as <-; exact Hm|].
    destruct (number_value acc) as [v|]; [|discriminate Hf]. cbn in Hf.
    destruct (take_scalar p v) as [p'|] eqn:E; [|discriminate Hf]. cbn in Hf.
    apply (feed_idle_marked p' c st'); [apply (take_scalar_marked p p' v Hm E)|exact Hf].
  - destruct (is_letter c); [injection Hf as <-; exact Hm|].
    destruct (word_value acc) as [v|]; [|discriminate Hf]. cbn in Hf.
    destruct (take_scalar p v) as [p'|] eqn:E; [|discriminate Hf]. cbn in Hf.
    apply (feed_idle_marked p' c st'); [apply (take_scalar_marked p p' v Hm E)|exact Hf].
Qed.

Lemma run_marked (s : bytes) (st st' : lexer * parser) :
  marked outer pkey m0 (snd st) -> run st s = Some st' -> marked outer pkey m0 (snd st').
Proof.
  revert st. induction s as [|c s IH]; intros st Hm Hr; cbn in Hr.
  - injection Hr as <-. exact Hm.
  - destruct (feed st c) as [st1|] eqn:E; [|discriminate Hr]. cbn in Hr.
    apply (IH st1); [apply (feed_marked st st1 c Hm E)|exact Hr].
Qed.

Lemma finish_marked (st : lexer * parser) (v : json) :
  marked outer pkey m0 (snd st) -> finish st = Some v ->
  exists more tl, v = JObj (rev outer ++ (pkey, JObj (m0 :: tl)) :: more)%list.
Proof.
  destruct st as [lx p]. cbn [snd]. intros Hm Hf. unfold finish in Hf.
  assert (Hp : exists p', marked outer pkey m0 p'
                 /\ match p' with ([], PDone v') => Some v' | _ => None end = Some v).
  { destruct lx as [|acc|acc|acc]; cbn in Hf.
    - eauto.
    - discriminate Hf.
    - destruct (number_value acc) as [w|]; [|discriminate Hf]. cbn in Hf.
      destruct (take_scalar p w) as [p'|] eqn:E; [|discriminate Hf]. cbn in Hf.
      exists p'. split; [apply (take_scalar_marked p p' w Hm E)|exact Hf].
    - destruct (word_value acc) as [w|]; [|discriminate Hf]. cbn in Hf.
      destruct (take_scalar p w) as [p'|] eqn:E; [|discriminate Hf]. cbn in Hf.
      exists p'. split; [apply (take_scalar_marked p p' w Hm E)|exact Hf]. }
  destruct Hp as ([stack ph] & Hm' & Hv).
  destruct stack; [|discriminate Hv]. destruct ph; try discriminate Hv.
  injection Hv as ->.
  destruct Hm' as [(stk & g & H & _) | [(stk & g & H & _) | [_ (more & tl & H)]]];
    cbn in H.
  - destruct stk; discriminate H.
  - destruct stk; discriminate H.
  - injection H as ->. eauto.
Qed.

End Marked.

Lemma split_at_quote (s : string) :
  contains_byte dquote s = true ->
  exists a b, s = a +:+ String dquote b /\ contains_byte dquote a = false.
Proof.
  induction s as [|c s IH]; cbn; [discriminate|].
  destruct (Ascii.eqb_spec dquote c) as [<-|Hc]; cbn.
  - intros _. exists EmptyString, s. auto.
  - intros H. destruct (IH H) as (a & b & -> & Ha).
    exists (String c a), b. split; [reflexivity|]. cbn.
    destruct (Ascii.eqb_spec dquote c) as [E|_]; [destruct (Hc E)|exact Ha].
Qed.

Lemma run_string_prefix (a rest acc : string) (p : parser) :
  contains_byte dquote a = false ->
  run (LStr acc, p) (a +:+ rest)
  = if plain_text a then run (LStr (acc +:+ a), p) rest else None.
Proof.
  revert acc. induction a as [|c a IH]; intros acc Ha.
  - cbn. rewrite append_nil_r. reflexivity.
  - cbn in Ha. apply orb_false_iff in Ha as [Hc Ha].
    change (String c a +:+ rest) with (String c (a +:+ rest)).
    cbn [run feed plain_text]. rewrite Ascii.eqb_sym, Hc.
    destruct (plain_char c); cbn; [|reflexivity].
    rewrite (IH _ Ha), append_assoc. reflexivity.
Qed.

Section QuoteInHole.

Variables (pre post : bytes) (outer : list (string * json)) (pkey key : string).

Hypothesis pre_read :
  run (LIdle, ([], PValue)) pre
  = Some (LStr EmptyString, ([FKey [] key; FKey outer pkey], PValue)).

Lemma quote_in_hole (s : string) :
  contains_byte dquote s = true ->
  read_json (pre +:+ s +:+ post)
  <> Some (JObj (rev outer ++ [(pkey, JObj [(key, JStr s)])])%list).
Proof.
  intros Hs Hread.
  destruct (split_at_quote s Hs) as (a & b & E & Ha).
  unfold read_json in Hread.
  rewrite run_app, pre_read in Hread. cbn [mbind option_bind] in Hread.
  rewrite E, append_assoc, (run_string_prefix a _ _ _ Ha) in Hread.
  destruct (plain_text a); [|discriminate Hread].
  change (String dquote b +:+ post) with (String dquote (b +:+ post)) in Hread.
  cbn [run feed] in Hread. rewrite Ascii.eqb_refl in Hread.
  cbn [take_string deliver mbind option_bind] in Hread.
  destruct (run _ (b +:+ post)) as [st'|] eqn:Hrun; [|discriminate Hread].
  cbn [mbind option_bind] in Hread.
  assert (Hm : marked outer pkey (key, JStr (EmptyString +:+ a)) (snd st')).
  { eapply run_marked; [|exact Hrun]. left.
    exists [], (FObj [(key, JStr (EmptyString +:+ a))]).
    split; [reflexivity|exists []; reflexivity]. }
  destruct (finish_marked _ _ _ _ _ Hm Hread) as (more & tl & Hv).
  injection Hv as Hv. apply app_inv_head in Hv. injection Hv as Hv _ _.
  cbn in Hv. rewrite E in Hs. rewrite Hv in Hs. congruence.
Qed.

End QuoteInHole.

Section Quotes.

Variable py_str : pyval -> string.
Variable net : network.

(** X14: a text that holds a double quote never arrives as it is: for such
    an argument none of [get_payments], [incoming_transfers], [query_key] and
    [make_integrated_address] sends a body that reads as the envelope of the
    method with the argument as its parameter. *)
Theorem quote_changes_the_request (st : state) (s : string) :
  contains_byte dquote s = true ->
  (exists body,
      sends (get_payments py_str net s) st body
      /\ read_json body
         <> Some (envelope "get_payments" (Some (JObj [("payment_id", JStr s)]))))
  /\ (exists body,
         sends (incoming_transfers py_str net s) st body
         /\ read_json body
            <> Some (envelope "incoming_transfers"
                       (Some (JObj [("transfer_type", JStr s)]))))
  /\ (exists body,
         sends (query_key py_str net s) st body
         /\ read_json body
            <> Some (envelope "query_key" (Some (JObj [("key_type", JStr s)]))))
  /\ (exists body,
         sends (make_integrated_address py_str net s) st body
         /\ read_json body
            <> Some (envelope "make_integrated_address"
                       (Some (JObj [("payment_id", JStr s)])))).
Proof.
  intros Hs. split; [|split; [|split]].
  - exists (py "{\n  'jsonrpc':'2.0',\n  'id':'0',\n  'method':'get_payments',\n  'params':\n    {\n        'payment_id':'"
            +:+ s +:+ py "'\n    }\n}\n").
    split; [apply sends_body; vm_compute; reflexivity|].
    apply (quote_in_hole _ _
             [("method", JStr "get_payments"); ("id", JStr "0"); ("jsonrpc", JStr "2.0")]
             "params" "payment_id"); [vm_compute; reflexivity|exact Hs].
  - exists (py "{\n  'jsonrpc':'2.0',\n  'id':'0',\n  'method':'incoming_transfers',\n  'params':\n    {\n      'transfer_type':'"
            +:+ s +:+ py "'\n    }\n}\n").
    split; [apply sends_body; vm_compute; reflexivity|].
    apply (quote_in_hole _ _
             [("method", JStr "incoming_transfers"); ("id", JStr "0");
              ("jsonrpc", JStr "2.0")]
             "params" "transfer_type"); [vm_compute; reflexivity|exact Hs].
  - exists (py "{\n  'jsonrpc':'2.0',\n  'id':'0',\n  'method':'query_key',\n  'params':\n    {\n      'key_type':'"
            +:+ s +:+ py "'\n    }\n}\n").
    split; [apply sends_body; vm_compute; reflexivity|].
    apply (quote_in_hole _ _
             [("method", JStr "query_key"); ("id", JStr "0"); ("jsonrpc", JStr "2.0")]
             "params" "key_type"); [vm_compute; reflexivity|exact Hs].
  - exists (py "{\n  'jsonrpc':'2.0',\n  'id':'0','method':\n  'make_integrated_address',\n    'params':\n      {\n        'payment_id':'"
            +:+ s +:+ py "'\n      }\n}\n").
    split; [apply sends_body; destruct s; vm_compute; reflexivity|].
    apply (quote_in_hole _ _
             [("method", JStr "make_integrated_address"); ("id", JStr "0");
              ("jsonrpc", JStr "2.0")]
             "params" "payment_id"); [vm_compute; reflexivity|exact Hs].
Qed.

End Quotes.

(** ** These statements at sample inputs *)

Lemma transport_failure_witness :
  exists body,
    call no_text unreachable Getbalance (new_client MoneroWallet_default)
    = (Raise RequestException, after_attempt body (new_client MoneroWallet_default)).
Proof.
  apply (transport_failure_propagates no_text Getbalance
           (new_client MoneroWallet_default)). reflexivity.
Defined.

Lemma invalid_json_witness :
  exists body,
    call no_text not_json (Query_key "view_key") (new_client MoneroWallet_default)
    = (Raise ValueError, after_attempt body (new_client MoneroWallet_default)).
Proof.
  apply (invalid_json_propagates no_text (Query_key "view_key")
           (new_client MoneroWallet_default)). reflexivity.
Defined.

Lemma dispatch_outcomes_witness :
  exists body o,
    call no_text (simulated height_response) Store (new_client MoneroWallet_default)
    = (o, after_request no_text body height_response (new_client MoneroWallet_default))
    /\ (o = Return PNone
        \/ o = Raise (MethodNotFoundError
                        ("Unexpected method while requesting the server: "
                         +:+ str_bytes body))
        \/ o = Raise (StatusCodeError
                        ("Unexpected returned status code: " +:+ no_text height_response))
        \/ o = Raise (KeyError "message")
        \/ o = Raise (KeyError "status")
        \/ o = Raise TypeError).
Proof.
  apply (dispatch_outcomes no_text Store (new_client MoneroWallet_default)
           height_response). reflexivity.
Defined.

Lemma non_object_response_witness :
  exists body,
    call no_text (simulated text_response) Getaddress (new_client MoneroWallet_default)
    = (Raise TypeError,
       after_request no_text body text_response (new_client MoneroWallet_default)).
Proof.
  apply (non_object_response no_text Getaddress (new_client MoneroWallet_default)
           text_response); [reflexivity | discriminate].
Defined.

Lemma malformed_error_witness :
  exists body,
    call no_text (simulated null_error_response) Getheight
      (new_client MoneroWallet_default)
    = (Raise TypeError,
       after_request no_text body null_error_response (new_client MoneroWallet_default)).
Proof.
  apply (malformed_error_entry no_text Getheight (new_client MoneroWallet_default)
           null_error_response PNone); [reflexivity | reflexivity | discriminate].
Defined.

Lemma status_comparison_witness :
  exists body,
    call no_text (simulated text_status_response) Getbalance
      (new_client MoneroWallet_default)
    = (Raise (StatusCodeError
                ("Unexpected returned status code: " +:+ no_text text_status_response)),
       after_request no_text body text_status_response
         (new_client MoneroWallet_default)).
Proof.
  apply (status_comparison no_text Getbalance (new_client MoneroWallet_default)
           text_status_response (PStr "200"));
    [reflexivity | reflexivity | reflexivity | discriminate].
Defined.

Lemma single_parameter_witness :
  (exists body,
      sends (incoming_transfers no_text (simulated height_response) "all")
        (new_client MoneroWallet_default) body
      /\ read_json body
         = Some (envelope "incoming_transfers"
                   (Some (JObj [("transfer_type", JStr "all")]))))
  /\ (exists body,
         sends (query_key no_text (simulated height_response) "mnemonic")
           (new_client MoneroWallet_default) body
         /\ read_json body
            = Some (envelope "query_key" (Some (JObj [("key_type", JStr "mnemonic")]))))
  /\ (exists body,
         sends (make_integrated_address no_text (simulated height_response) EmptyString)
           (new_client MoneroWallet_default) body
         /\ read_json body
            = Some (envelope "make_integrated_address"
                      (Some (JObj [("payment_id", JStr EmptyString)])))).
Proof.
  apply (single_parameter_bodies no_text (simulated height_response)
           (new_client MoneroWallet_default) "all" "mnemonic" EmptyString);
    reflexivity.
Defined.

Lemma bulk_payment_ids_witness :
  exists body,
    sends (get_bulk_payments no_text (simulated height_response)
             ["HEIGHT"; "94dd4c2613f5919d"] 1148609)
      (new_client MoneroWallet_default) body
    /\ read_json body
       = Some (envelope "get_bulk_payments"
                 (Some (JObj [("payment_ids",
                               JArr [JStr "1148609"; JStr "94dd4c2613f5919d"]);
                              ("min_block_height", JInt 1148609)]))).
Proof.
  apply (bulk_payment_ids_sent no_text (simulated height_response)
           (new_client MoneroWallet_default) ["HEIGHT"; "94dd4c2613f5919d"] 1148609).
  repeat constructor.
Defined.

Lemma quote_changes_witness :
  (exists body,
      sends (get_payments no_text (simulated height_response) text_with_quotes)
        (new_client MoneroWallet_default) body
      /\ read_json body
         <> Some (envelope "get_payments"
                    (Some (JObj [("payment_id", JStr text_with_quotes)]))))
  /\ (exists body,
         sends (incoming_transfers no_text (simulated height_response) text_with_quotes)
           (new_client MoneroWallet_default) body
         /\ read_json body
            <> Some (envelope "incoming_transfers"
                       (Some (JObj [("transfer_type", JStr text_with_quotes)]))))
  /\ (exists body,
         sends (query_key no_text (simulated height_response) text_with_quotes)
           (new_client MoneroWallet_default) body
         /\ read_json body
            <> Some (envelope "query_key"
                       (Some (JObj [("key_type", JStr text_with_quotes)]))))
  /\ (exists body,
         sends (make_integrated_address no_text (simulated height_response)
                  text_with_quotes)
           (new_client MoneroWallet_default) body
         /\ read_json body
            <> Some (envelope "make_integrated_address"
                       (Some (JObj [("payment_id", JStr text_with_quotes)])))).
Proof.
  apply (quote_changes_the_request no_text (simulated height_response)
           (new_client MoneroWallet_default) text_with_quotes).
  reflexivity.
Defined.
